(** * MCP-BingSearch: the agent-invocation orchestrator of [src/mcp/server.py]

    A shallow embedding of [query_agent], [initialize_agent_client] and
    [bing_search].  The Azure Agent Client is an external collaborator: it is
    modelled as an interface (a type class over the state of the remote
    platform) whose methods either return a value or raise.  Every remote
    call, every [asyncio.sleep] and every [logger.error] is recorded in a
    trace, so that the order and the number of the calls can be stated.

    The only unbounded construct of the source is the polling [while] loop;
    it is given fuel, and running out of fuel is kept apart ([None]) from
    both returning and raising. *)

From stdpp Require Import gmap strings list.
From Stdlib Require Import NArith Ascii String.

Open Scope string_scope.
Open Scope N_scope.
Open Scope list_scope.

(** * Python values *)

(** A Python [str] is a sequence of Unicode code points. *)
Abbreviation str := (list N).

(** An ASCII literal of the source, as a [str]. *)
Definition py (s : string) : str :=
  (λ a, N_of_ascii a) <$> list_ascii_of_string s.

Global Arguments py : simpl never.

(** The line break ["\n"]. *)
Definition nl : str := [10].

(** [str.isspace] on one code point: the table of CPython's
    [_PyUnicode_IsWhitespace]. *)
Definition isspace (c : N) : bool :=
  ((9 <=? c) && (c <=? 13)) || ((28 <=? c) && (c <=? 32))
  || (c =? 133) || (c =? 160) || (c =? 5760)
  || ((8192 <=? c) && (c <=? 8202))
  || (c =? 8232) || (c =? 8233) || (c =? 8239) || (c =? 8287)
  || (c =? 12288).

(** [str.lstrip()], [str.rstrip()] and [str.strip()] without argument. *)
Fixpoint lstrip (s : str) : str :=
  match s with
  | c :: s' => if isspace c then lstrip s' else s
  | [] => []
  end.

Definition rstrip (s : str) : str := reverse (lstrip (reverse s)).

Definition strip (s : str) : str := lstrip (rstrip s).

(** [sep.join(parts)]. *)
Fixpoint join (sep : str) (parts : list str) : str :=
  match parts with
  | [] => []
  | [p] => p
  | p :: ps => p ++ sep ++ join sep ps
  end.

(** [needle in hay] on strings. *)
Fixpoint startswith (s prefix : str) : bool :=
  match prefix, s with
  | [], _ => true
  | p :: prefix', c :: s' => (p =? c) && startswith s' prefix'
  | _ :: _, [] => false
  end.

Fixpoint contains (hay needle : str) : bool :=
  startswith hay needle ||
  match hay with
  | [] => false
  | _ :: hay' => contains hay' needle
  end.

(** The values stored in the dictionaries the tool returns. *)
Inductive value : Type :=
  | VBool (b : bool)
  | VStr (s : str)
  | VList (l : list str).

(** A returned [Dict]: string keys, no order. *)
Abbreviation Dict := (gmap string value).

(** Exceptions: instances of [Exception], seen through [str(e)]. *)
Inductive exn : Type := Exception (message : str).

Definition exn_str (e : exn) : str := let 'Exception m := e in m.

(** * The remote platform's objects, as far as the code reads them *)

(** [azure.ai.agents.models.MessageRole]. *)
Inductive MessageRole : Type := USER | AGENT.

Global Instance MessageRole_eq_dec : EqDecision MessageRole.
Proof. solve_decision. Defined.

(** [annotation.url_citation]; both fields as an f-string formats them. *)
Record UrlCitation : Type := {
  title : str;
  url : str
}.

(** A thread message: [msg.role], the [.text.value] of each entry of
    [msg.text_messages], and the [.url_citation] of each entry of
    [msg.url_citation_annotations]. *)
Record ThreadMessage : Type := {
  role : MessageRole;
  text_messages : list str;
  url_citation_annotations : list UrlCitation
}.

(** A thread: [thread.id]. *)
Record AgentThread : Type := { thread_id_of : str }.

(** A run: [run.id] (here [run_id_of]), [run.status] and [run.last_error] as an f-string
    formats it. *)
Record ThreadRun : Type := {
  run_id_of : str;
  status : str;
  last_error : str
}.

(** * Effects *)

Inductive call : Type :=
  | GetAgent (agent_id : str)
  | ThreadsCreate
  | MessagesCreate (thread_id : str) (r : MessageRole) (content : str)
  | RunsCreate (thread_id agent_id : str)
  | RunsGet (thread_id run_id : str)
  | MessagesList (thread_id : str).

(** What an execution does, in order.  A remote call is recorded with the
    exception it raised, if any. *)
Inductive event : Type :=
  | Remote (c : call) (raised : option exn)
  | Sleep (seconds : N)
  | LogError (msg : str).

(** The Agent Client ([client.agents....]) over a platform state [σ]. *)
Class AgentClient (σ : Type) : Type := {
  agents_get_agent : str → σ → (exn + unit) * σ;
  threads_create : σ → (exn + AgentThread) * σ;
  messages_create : str → MessageRole → str → σ → (exn + unit) * σ;
  runs_create : str → str → σ → (exn + ThreadRun) * σ;
  runs_get : str → str → σ → (exn + ThreadRun) * σ;
  messages_list : str → σ → (exn + list ThreadMessage) * σ
}.

Inductive outcome (A : Type) : Type :=
  | Return (a : A)
  | Raise (e : exn).
Arguments Return {A} a.
Arguments Raise {A} e.

(** A computation over a state [S]: [None] when the fuel of the polling
    loop is exhausted. *)
Definition M (S A : Type) : Type := S → option (outcome A * S).

Definition ret {S A} (a : A) : M S A := λ s, Some (Return a, s).

Definition raise {S A} (e : exn) : M S A := λ s, Some (Raise e, s).

Definition bind {S A B} (m : M S A) (k : A → M S B) : M S B :=
  λ s, match m s with
       | Some (Return a, s') => k a s'
       | Some (Raise e, s') => Some (Raise e, s')
       | None => None
       end.

(** [try: body except Exception as e: handler]. *)
Definition try_except {S A} (body : M S A) (handler : exn → M S A) : M S A :=
  λ s, match body s with
       | Some (Raise e, s') => handler e s'
       | r => r
       end.

Notation "x <- c ;; k" := (bind c (λ x, k))
  (at level 20, c at level 99, k at level 200, only parsing).
Notation "' pat <- c ;; k" :=
  (bind c (λ x, match x with pat => k end))
  (at level 20, pat pattern, c at level 99, k at level 200, only parsing).
Notation "c ;;; k" := (bind c (λ _, k))
  (at level 100, k at level 200, only parsing, right associativity).

(** The state [query_agent] runs in: the platform behind [client] and the
    trace so far. *)
Record Session (σ : Type) : Type := {
  platform : σ;
  trace : list event
}.
Arguments platform {σ} _.
Arguments trace {σ} _.

(** The session after one more event. *)
Definition logged {σ} (w : Session σ) (ev : event) : Session σ :=
  {| platform := platform w; trace := trace w ++ [ev] |}.

Definition emit {σ} (ev : event) : M (Session σ) unit :=
  λ w, Some (Return (), logged w ev).

(** [await client.agents....]: one remote call. *)
Definition remote {σ A} (c : call) (f : σ → (exn + A) * σ) : M (Session σ) A :=
  λ w, match f (platform w) with
       | (inl e, p) =>
           Some (Raise e, {| platform := p; trace := trace w ++ [Remote c (Some e)] |})
       | (inr a, p) =>
           Some (Return a, {| platform := p; trace := trace w ++ [Remote c None] |})
       end.

(** * [query_agent] *)

(** Line 83: [run.status in ["queued", "in_progress", "requires_action"]]. *)
Definition pending (st : str) : bool :=
  bool_decide (st ∈ [py "queued"; py "in_progress"; py "requires_action"]).

(** Line 112: [f"[{title}]({url})"]. *)
Definition render (annotation : UrlCitation) : str :=
  py "[" ++ title annotation ++ py "](" ++ url annotation ++ py ")".

(** Lines 100-102: the [async for] keeps the last message whose role is
    [MessageRole.AGENT]. *)
Definition select_response (response_messages : list ThreadMessage)
  : option ThreadMessage :=
  fold_left
    (λ response_message msg,
       if decide (role msg = AGENT) then Some msg else response_message)
    response_messages None.

(** Lines 108-109: [result += text_message.text.value + "\n"]. *)
Definition append_texts (result : str) (texts : list str) : str :=
  fold_left (λ result text, result ++ (text ++ nl)) texts result.

(** Lines 111-114: append a rendered citation unless it is in the list. *)
Definition collect_citations (citations : list str)
    (annotations : list UrlCitation) : list str :=
  fold_left
    (λ citations annotation,
       let citation := render annotation in
       if decide (citation ∈ citations) then citations
       else citations ++ [citation])
    annotations citations.

(** Lines 116-119: the Sources section. *)
Definition append_sources (result : str) (citations : list str) : str :=
  match citations with
  | [] => result
  | _ :: _ =>
      fold_left (λ result citation, result ++ (py "- " ++ citation ++ nl))
        citations
        (result ++ (nl ++ nl ++ py "## Sources" ++ nl))
  end.

(** Lines 104-119: the result text before [strip], and the citations.
    [if response_message:] holds for every message object, and fails for
    [None] only. *)
Definition extract (response_message : option ThreadMessage) : str * list str :=
  let result := [] in
  let citations := [] in
  let '(result, citations) :=
    match response_message with
    | Some m =>
        (append_texts result (text_messages m),
         collect_citations citations (url_citation_annotations m))
    | None => (result, citations)
    end in
  (append_sources result citations, citations).

(** Lines 90-96. *)
Definition failure_result (error_msg thread_id run_id : str) : Dict :=
  <["success" := VBool false]>
  (<["error" := VStr error_msg]>
  (<["thread_id" := VStr thread_id]>
  (<["run_id" := VStr run_id]>
  (<["result" := VStr (py "Error: " ++ error_msg)]> ∅)))).

(** Lines 121-127. *)
Definition success_result (thread_id run_id result : str)
    (citations : list str) : Dict :=
  <["success" := VBool true]>
  (<["thread_id" := VStr thread_id]>
  (<["run_id" := VStr run_id]>
  (<["result" := VStr (strip result)]>
  (<["citations" := VList citations]> ∅)))).

Section Orchestrator.
Context {σ : Type} `{client : AgentClient σ}.

Abbreviation M' := (M (Session σ)).

(** Lines 83-85: the polling loop. *)
Fixpoint poll (fuel : nat) (thread_id : str) (run : ThreadRun) : M' ThreadRun :=
  if pending (status run) then
    match fuel with
    | O => λ _, None
    | S fuel' =>
        emit (Sleep 1) ;;;
        run' <- remote (RunsGet thread_id (run_id_of run))
                  (runs_get thread_id (run_id_of run)) ;;
        poll fuel' thread_id run'
    end
  else ret run.

(** Lines 73-85: look the agent up, create the thread, post the query,
    start the run and poll it to a terminal status. *)
Definition start_run (fuel : nat) (agent_id query : str)
  : M' (str * str * ThreadRun) :=
  agent <- remote (GetAgent agent_id) (agents_get_agent agent_id) ;;
  thread <- remote ThreadsCreate threads_create ;;
  let thread_id := thread_id_of thread in
  remote (MessagesCreate thread_id USER query)
    (messages_create thread_id USER query) ;;;
  run <- remote (RunsCreate thread_id agent_id)
           (runs_create thread_id agent_id) ;;
  let run_id := run_id_of run in
  run <- poll fuel thread_id run ;;
  ret (thread_id, run_id, run).

(** Lines 87-127: the terminal check and the extraction. *)
Definition finish_run (thread_id run_id : str) (run : ThreadRun) : M' Dict :=
  if decide (status run = py "failed") then
    let error_msg := py "Agent run failed: " ++ last_error run in
    emit (LogError error_msg) ;;;
    ret (failure_result error_msg thread_id run_id)
  else
    response_messages <- remote (MessagesList thread_id)
                           (messages_list thread_id) ;;
    let response_message := select_response response_messages in
    let '(result, citations) := extract response_message in
    ret (success_result thread_id run_id result citations).

(** Lines 72-127: the body of the [try]. *)
Definition query_agent_body (fuel : nat) (agent_id query : str) : M' Dict :=
  '(thread_id, run_id, run) <- start_run fuel agent_id query ;;
  finish_run thread_id run_id run.

(** Lines 71-131: the handler logs and raises the exception again. *)
Definition query_agent (fuel : nat) (agent_id query : str) : M' Dict :=
  try_except
    (query_agent_body fuel agent_id query)
    (λ e,
       emit (LogError (py "Agent query failed - ID: " ++ agent_id
                       ++ py ", Error: " ++ exn_str e)) ;;;
       raise e).

End Orchestrator.

(** * The tool: module globals, [initialize_agent_client], [bing_search] *)

(** Lines 45-47, and what the process has done so far.  [AI_CLIENT] holds
    the platform state behind the one shared client object. *)
Record Globals (σ : Type) : Type := {
  AZURE_AI_FOUNDRY_PROJECT_ENDPOINT : option str;
  AZURE_AI_FOUNDRY_AGENT_ID : option str;
  AI_CLIENT : option σ;
  events : list event
}.
Arguments AZURE_AI_FOUNDRY_PROJECT_ENDPOINT {σ} _.
Arguments AZURE_AI_FOUNDRY_AGENT_ID {σ} _.
Arguments AI_CLIENT {σ} _.
Arguments events {σ} _.

(** Truth value of a global that is [None] or a [str]. *)
Definition truthy (v : option str) : bool :=
  match v with
  | Some (_ :: _) => true
  | Some [] | None => false
  end.

(** Line 155. *)
Definition not_initialized_msg : str :=
  py "Bing Search service is not initialized. Check AZURE_AI_FOUNDRY_PROJECT_ENDPOINT and AZURE_AI_FOUNDRY_AGENT_ID environment variables.".

Definition error_payload (msg : str) : Dict := {[ "error" := VStr msg ]}.

(** The globals after one more event. *)
Definition recorded {σ} (g : Globals σ) (ev : event) : Globals σ :=
  {| AZURE_AI_FOUNDRY_PROJECT_ENDPOINT := AZURE_AI_FOUNDRY_PROJECT_ENDPOINT g;
     AZURE_AI_FOUNDRY_AGENT_ID := AZURE_AI_FOUNDRY_AGENT_ID g;
     AI_CLIENT := AI_CLIENT g;
     events := events g ++ [ev] |}.

(** The globals after the shared client ran up to the session [w]. *)
Definition sync {σ} (g : Globals σ) (w : Session σ) : Globals σ :=
  {| AZURE_AI_FOUNDRY_PROJECT_ENDPOINT := AZURE_AI_FOUNDRY_PROJECT_ENDPOINT g;
     AZURE_AI_FOUNDRY_AGENT_ID := AZURE_AI_FOUNDRY_AGENT_ID g;
     AI_CLIENT := Some (platform w);
     events := trace w |}.

Section Facade.
Context {σ : Type} `{client : AgentClient σ}.

(** Lines 58-63: [ClientSecretCredential(...)] and [AIProjectClient(...)]
    for an endpoint; both are local constructions, either may raise. *)
Variable AIProjectClient : str → exn + σ.

Abbreviation G := (M (Globals σ)).

Definition get_globals : G (Globals σ) := λ g, Some (Return g, g).

Definition set_AI_CLIENT (c : σ) : G unit :=
  λ g, Some (Return (),
             {| AZURE_AI_FOUNDRY_PROJECT_ENDPOINT := AZURE_AI_FOUNDRY_PROJECT_ENDPOINT g;
                AZURE_AI_FOUNDRY_AGENT_ID := AZURE_AI_FOUNDRY_AGENT_ID g;
                AI_CLIENT := Some c;
                events := events g |}).

Definition log_error (msg : str) : G unit :=
  λ g, Some (Return (), recorded g (LogError msg)).

(** Run a computation of the client [c], which is the object [AI_CLIENT]
    refers to: its state changes in place. *)
Definition with_client {A} (c : σ) (m : M (Session σ) A) : G A :=
  λ g, match m {| platform := c; trace := events g |} with
       | Some (o, w) => Some (o, sync g w)
       | None => None
       end.

(** Lines 51-67. *)
Definition initialize_agent_client : G bool :=
  g <- get_globals ;;
  if negb (truthy (AZURE_AI_FOUNDRY_PROJECT_ENDPOINT g)
           && truthy (AZURE_AI_FOUNDRY_AGENT_ID g))
  then ret false
  else
    match AIProjectClient (default [] (AZURE_AI_FOUNDRY_PROJECT_ENDPOINT g)) with
    | inr c => set_AI_CLIENT c ;;; ret true
    | inl e =>
        log_error (py "Failed to initialize AIProjectClient: " ++ exn_str e) ;;;
        ret false
    end.

(** Lines 153-167. *)
Definition bing_search (fuel : nat) (query : str) : G Dict :=
  g <- get_globals ;;
  if negb (truthy (AZURE_AI_FOUNDRY_PROJECT_ENDPOINT g)
           && truthy (AZURE_AI_FOUNDRY_AGENT_ID g))
  then ret (error_payload not_initialized_msg)
  else
    (match AI_CLIENT g with
     | None => initialize_agent_client
     | Some _ => ret true
     end) ;;;
    g <- get_globals ;;
    match AI_CLIENT g with
    | None => ret (error_payload (py "Failed to initialize Bing Search client."))
    | Some c =>
        try_except
          (response <- with_client c
                         (query_agent fuel
                            (default [] (AZURE_AI_FOUNDRY_AGENT_ID g)) query) ;;
           ret response)
          (λ e,
             log_error (py "Error performing Bing search: " ++ exn_str e) ;;;
             ret (error_payload (py "Error performing Bing search: " ++ exn_str e)))
    end.

End Facade.

(** * A scripted Agent Client

    A stub that answers each method from a script and counts the calls it
    receives.  [runs.get] answers from a list, one entry per call, and
    raises once the list is used up. *)
Record Stub : Type := {
  on_get_agent : exn + unit;
  on_threads_create : exn + AgentThread;
  on_messages_create : exn + unit;
  on_runs_create : exn + ThreadRun;
  on_runs_get : list (exn + ThreadRun);
  on_messages_list : exn + list ThreadMessage;
  call_count : nat
}.

Definition called (s : Stub) : Stub :=
  {| on_get_agent := on_get_agent s;
     on_threads_create := on_threads_create s;
     on_messages_create := on_messages_create s;
     on_runs_create := on_runs_create s;
     on_runs_get := on_runs_get s;
     on_messages_list := on_messages_list s;
     call_count := S (call_count s) |}.

Definition next_run (s : Stub) : (exn + ThreadRun) * Stub :=
  match on_runs_get s with
  | r :: rest =>
      (r, {| on_get_agent := on_get_agent s;
             on_threads_create := on_threads_create s;
             on_messages_create := on_messages_create s;
             on_runs_create := on_runs_create s;
             on_runs_get := rest;
             on_messages_list := on_messages_list s;
             call_count := S (call_count s) |})
  | [] => (inl (Exception (py "script exhausted")), called s)
  end.

Global Instance Stub_client : AgentClient Stub := {|
  agents_get_agent := λ _ s, (on_get_agent s, called s);
  threads_create := λ s, (on_threads_create s, called s);
  messages_create := λ _ _ _ s, (on_messages_create s, called s);
  runs_create := λ _ _ s, (on_runs_create s, called s);
  runs_get := λ _ _ s, next_run s;
  messages_list := λ _ s, (on_messages_list s, called s)
|}.

(** ** Scripts used to exercise the statements *)

Definition a_run (st err : str) : ThreadRun :=
  {| run_id_of := py "run_1"; status := st; last_error := err |}.

(** An existing agent, a thread [thread_1], and the given answers of
    [runs.create], [runs.get] and [messages.list]. *)
Definition script (create : exn + ThreadRun) (gets : list (exn + ThreadRun))
    (listed : exn + list ThreadMessage) : Stub :=
  {| on_get_agent := inr ();
     on_threads_create := inr {| thread_id_of := py "thread_1" |};
     on_messages_create := inr ();
     on_runs_create := create;
     on_runs_get := gets;
     on_messages_list := listed;
     call_count := 0 |}.

Definition fresh (s : Stub) : Session Stub := {| platform := s; trace := [] |}.

Definition cite (t u : string) : UrlCitation := {| title := py t; url := py u |}.

Definition user_message : ThreadMessage :=
  {| role := USER; text_messages := [py "hello"]; url_citation_annotations := [] |}.

Definition draft_message : ThreadMessage :=
  {| role := AGENT; text_messages := [py "draft"];
     url_citation_annotations := [cite "Old" "http://old"] |}.

Definition plain_answer : ThreadMessage :=
  {| role := AGENT; text_messages := [py "A"; py "B"];
     url_citation_annotations := [] |}.

Definition cited_answer : ThreadMessage :=
  {| role := AGENT; text_messages := [py "Answer"];
     url_citation_annotations :=
       [cite "One" "http://1"; cite "Two" "http://2"; cite "One" "http://1"] |}.

(** A run that is queued, then in progress, then in the given final state. *)
Definition three_step (final : ThreadRun) (listed : exn + list ThreadMessage) : Stub :=
  script (inr (a_run (py "queued") (py "None")))
    [inr (a_run (py "in_progress") (py "None")); inr final] listed.

(** * Observations on traces *)

(** The number of [asyncio.sleep] calls in a trace. *)
Definition sleeps (t : list event) : nat :=
  List.length (List.filter (λ ev, match ev with Sleep _ => true | _ => false end) t).

(** The remote calls that answer with a run, whose status the loop reads:
    [runs.create] (the first status) and [runs.get] (each later one). *)
Definition is_status_fetch (ev : event) : bool :=
  match ev with
  | Remote (RunsCreate _ _) _ | Remote (RunsGet _ _) _ => true
  | _ => false
  end.

Definition status_fetches (t : list event) : nat :=
  List.length (List.filter is_status_fetch t).

(** The calls to [runs.get] alone. *)
Definition runs_get_calls (t : list event) : nat :=
  List.length
    (List.filter (λ ev, match ev with Remote (RunsGet _ _) _ => true | _ => false end) t).

(** The remote calls that create a thread, a message or a run. *)
Definition is_creation (ev : event) : bool :=
  match ev with
  | Remote ThreadsCreate _ | Remote (MessagesCreate _ _ _) _
  | Remote (RunsCreate _ _) _ => true
  | _ => false
  end.

(** A trace in which no remote call raised. *)
Definition quiet (t : list event) : Prop :=
  Forall (λ ev, match ev with Remote _ (Some _) => False | _ => True end) t.

(** [traced m]: whatever [m] does, it only extends the trace; when it
    returns no remote call raised, and when it raises the exception is the
    one of its last remote call, which is also the last event. *)
Definition traced {σ A} (m : M (Session σ) A) : Prop :=
  ∀ w o w', m w = Some (o, w') →
    ∃ t, trace w' = trace w ++ t ∧
         match o with
         | Return _ => quiet t
         | Raise e => ∃ t0 c, t = t0 ++ [Remote c (Some e)] ∧ quiet t0
         end.

(** The Sources section as the specification words it: a header line
    followed by one bulleted line per citation. *)
Definition sources_section (citations : list str) : str :=
  join nl (py "## Sources" :: ((λ c, py "- " ++ c) <$> citations)).

(** The number of remote calls of a kind in a trace. *)
Definition calls_where (kind : call → bool) (t : list event) : nat :=
  List.length
    (List.filter (λ ev, match ev with Remote c _ => kind c | _ => false end) t).

Definition is_get_agent (c : call) : bool :=
  match c with GetAgent _ => true | _ => false end.

Definition is_threads_create (c : call) : bool :=
  match c with ThreadsCreate => true | _ => false end.

Definition is_messages_create (c : call) : bool :=
  match c with MessagesCreate _ _ _ => true | _ => false end.

Definition is_runs_create (c : call) : bool :=
  match c with RunsCreate _ _ => true | _ => false end.

Definition is_messages_list (c : call) : bool :=
  match c with MessagesList _ => true | _ => false end.

(** What one iteration of the loop on the thread [thread_id] may leave in
    the trace: a sleep of one second, or a [runs.get] on that thread. *)
Definition is_poll_event (thread_id : str) (ev : event) : bool :=
  match ev with
  | Sleep seconds => seconds =? 1
  | Remote (RunsGet thread_id' _) _ => bool_decide (thread_id' = thread_id)
  | _ => false
  end.

(** The globals after [AI_CLIENT = c]. *)
Definition installed {σ} (g : Globals σ) (c : σ) : Globals σ :=
  {| AZURE_AI_FOUNDRY_PROJECT_ENDPOINT := AZURE_AI_FOUNDRY_PROJECT_ENDPOINT g;
     AZURE_AI_FOUNDRY_AGENT_ID := AZURE_AI_FOUNDRY_AGENT_ID g;
     AI_CLIENT := Some c;
     events := events g |}.

(** ** A platform on which the run never leaves [requires_action]

    The state counts the calls received. *)
Record Stuck : Type := { stuck_calls : nat }.

Definition stuck_call (s : Stuck) : Stuck := {| stuck_calls := S (stuck_calls s) |}.

Global Instance Stuck_client : AgentClient Stuck := {|
  agents_get_agent := λ _ s, (inr (), stuck_call s);
  threads_create := λ s, (inr {| thread_id_of := py "thread_1" |}, stuck_call s);
  messages_create := λ _ _ _ s, (inr (), stuck_call s);
  runs_create := λ _ _ s, (inr (a_run (py "queued") (py "None")), stuck_call s);
  runs_get := λ _ _ s, (inr (a_run (py "requires_action") (py "None")), stuck_call s);
  messages_list := λ _ s, (inr [], stuck_call s)
|}.

(** ** Globals and scripts used to exercise the statements on the tool *)

(** Both identifiers set, and the given client. *)
Definition configured (c : option Stub) : Globals Stub :=
  {| AZURE_AI_FOUNDRY_PROJECT_ENDPOINT := Some (py "https://example.invalid");
     AZURE_AI_FOUNDRY_AGENT_ID := Some (py "agent_1");
     AI_CLIENT := c;
     events := [] |}.

(** A run whose later answers carry another identifier. *)
Definition renamed_run : Stub :=
  script (inr (a_run (py "queued") (py "None")))
    [inr {| run_id_of := py "run_2"; status := py "completed";
            last_error := py "None" |}]
    (inr [user_message; plain_answer]).

(** A run that is complete when it is created. *)
Definition done_at_once : Stub :=
  script (inr (a_run (py "completed") (py "None"))) []
    (inr [user_message; cited_answer]).

(** What [query_agent] leaves and returns on [done_at_once]. *)
Definition done_at_once_session : Session Stub :=
  {| platform := Nat.iter 5 called done_at_once;
     trace := [Remote (GetAgent (py "agent_1")) None;
               Remote ThreadsCreate None;
               Remote (MessagesCreate (py "thread_1") USER (py "weather")) None;
               Remote (RunsCreate (py "thread_1") (py "agent_1")) None;
               Remote (MessagesList (py "thread_1")) None] |}.

Definition done_at_once_result : Dict :=
  success_result (py "thread_1") (py "run_1")
    (extract (Some cited_answer)).1 (extract (Some cited_answer)).2.

Definition no_credentials : str → exn + Stub :=
  λ _, inl (Exception (py "no credentials")).

(** * [main] (lines 170-201) *)

(** The levels the module logs at. *)
Inductive Level : Type := INFO | WARNING | ERROR.

(** The arguments of [mcp.run]. *)
Record ServerStart : Type := {
  transport : str;
  host : str;
  port : N
}.

(** What [main] has done when the server starts: the globals it assigned,
    the lines it logged, and the call to [mcp.run]. *)
Record Started (σ : Type) : Type := {
  globals_of : Globals σ;
  lines : list (Level * str);
  server : ServerStart
}.
Arguments globals_of {σ} _.
Arguments lines {σ} _.
Arguments server {σ} _.

(** [logger.warning(msg)] under the condition [cond]. *)
Definition warn_if (cond : bool) (msg : str) (log : list (Level * str))
  : list (Level * str) :=
  if cond then log ++ [(WARNING, msg)] else log.

(** [main()], given [args.transport] ([None] when the flag is absent, for
    which the parser puts ['stdio']) and [os.environ].  [os.environ.get]
    and the logger do not raise, so the handler of lines 195-198 stays out.
    [mcp.run] serves until the process ends; its call is what is kept. *)
Definition main {σ} (args_transport : option str) (environ : gmap string str)
    (g : Globals σ) : Started σ :=
  let specified_transport := default (py "stdio") args_transport in
  let log :=
    [(INFO, py "Starting Bing Search MCP server: Transport = " ++ specified_transport)] in
  let endpoint := environ !! "AZURE_AI_FOUNDRY_PROJECT_ENDPOINT" in
  let agent_id := environ !! "AZURE_AI_FOUNDRY_AGENT_ID" in
  let log :=
    warn_if (negb (truthy endpoint))
      (py "AZURE_AI_FOUNDRY_PROJECT_ENDPOINT is missing") log in
  let log :=
    warn_if (negb (truthy agent_id))
      (py "AZURE_AI_FOUNDRY_AGENT_ID is missing") log in
  let log :=
    warn_if (negb (truthy endpoint && truthy agent_id))
      (py "Bing Search features will not work without both environment variables")
      log in
  {| globals_of :=
       {| AZURE_AI_FOUNDRY_PROJECT_ENDPOINT := endpoint;
          AZURE_AI_FOUNDRY_AGENT_ID := agent_id;
          AI_CLIENT := AI_CLIENT g;
          events := events g |};
     lines := log;
     server := {| transport := py "http"; host := py "0.0.0.0"; port := 8000 |} |}.

(** The globals when the module is loaded (lines 45-47). *)
Definition at_import {σ} : Globals σ :=
  {| AZURE_AI_FOUNDRY_PROJECT_ENDPOINT := None;
     AZURE_AI_FOUNDRY_AGENT_ID := None;
     AI_CLIENT := None;
     events := [] |}.

(** The warnings among logged lines. *)
Definition warnings (log : list (Level * str)) : list str :=
  omap (λ l, match l with (WARNING, msg) => Some msg | _ => None end) log.

(** * [configure_utf8_logging] (lines 18-36) *)

(** A stream handler: the wrapper it writes to and its format. *)
Record Handler : Type := {
  stream : nat;
  fmt : str
}.

(** The module global [_utf8_stderr] (a wrapper, named by its rank of
    creation), the number of wrappers created so far, and the root logger's
    level and handlers. *)
Record Logging : Type := {
  utf8_stderr : option nat;
  wrappers_created : nat;
  root_level : Level;
  root_handlers : list Handler
}.

Definition configure_utf8_logging (s : Logging) : Logging :=
  let '(wrapper, created) :=
    match utf8_stderr s with
    | None => (wrappers_created s, S (wrappers_created s))
    | Some wrapper => (wrapper, wrappers_created s)
    end in
  let handler :=
    {| stream := wrapper; fmt := py "[%(levelname)-8s] [%(name)s] %(message)s" |} in
  {| utf8_stderr := Some wrapper;
     wrappers_created := created;
     root_level := INFO;
     root_handlers := [handler] |}.

(** ** Start-ups used to exercise the statements on [main] *)

(** Started with [--transport sse] and no agent identifier. *)
Definition started_without_agent : Started Stub :=
  main (Some (py "sse"))
    {[ "AZURE_AI_FOUNDRY_PROJECT_ENDPOINT" := py "https://example.invalid" ]}
    at_import.

(** Started without flag and with both variables. *)
Definition started_with_both : Started Stub :=
  main None
    (<["AZURE_AI_FOUNDRY_PROJECT_ENDPOINT" := py "https://example.invalid"]>
       {[ "AZURE_AI_FOUNDRY_AGENT_ID" := py "agent_1" ]})
    at_import.

(** Normal form of nested [++] and [::]. *)
Ltac list_norm :=
  repeat (progress (rewrite <- ?app_assoc, <- ?app_comm_cons)).

(** Closes a goal that evaluation decides. *)
Ltac evaluated :=
  first [ vm_compute; reflexivity
        | let H := fresh in intros H; vm_compute in H; discriminate H ].

(** * Facts about [strip] and [join] *)

Section Strings.
Implicit Types (s t ws : str) (c : N).

Lemma lstrip_spaces ws s :
  forallb isspace ws = true → lstrip (ws ++ s) = lstrip s.
Proof.
  induction ws as [|c ws IH]; simpl; [done|].
  intros [Hc Hws]%andb_prop. rewrite Hc. auto.
Qed.

Lemma lstrip_nonspace c s : isspace c = false → lstrip (c :: s) = c :: s.
Proof. simpl. by intros ->. Qed.

(** A string is a run of white space followed by what [lstrip] keeps,
    and what it keeps does not start with white space. *)
Lemma lstrip_split s :
  ∃ ws, forallb isspace ws = true ∧ s = ws ++ lstrip s
        ∧ (lstrip s = [] ∨ ∃ c r, lstrip s = c :: r ∧ isspace c = false).
Proof.
  induction s as [|c s (ws & Hws & Hs & Hl)]; simpl.
  - exists []. auto.
  - destruct (isspace c) eqn:Hc.
    + exists (c :: ws). simpl. rewrite Hc, Hws. split; [done|].
      split; [by f_equal|done].
    + exists []. split; [done|]. split; [done|]. right. eauto.
Qed.

Lemma rstrip_spaces s ws :
  forallb isspace ws = true → rstrip (s ++ ws) = rstrip s.
Proof.
  intros Hws. unfold rstrip. rewrite reverse_app.
  rewrite lstrip_spaces; [done|].
  clear s. induction ws as [|c ws IH]; [done|].
  simpl in Hws. apply andb_prop in Hws as [Hc Hws].
  rewrite reverse_cons, forallb_app. simpl. by rewrite IH, Hc.
Qed.

Lemma rstrip_nonspace s c : isspace c = false → rstrip (s ++ [c]) = s ++ [c].
Proof.
  intros Hc. unfold rstrip. rewrite reverse_app. simpl.
  rewrite Hc. by rewrite reverse_cons, reverse_involutive.
Qed.

(** [strip] removes the white space around a core that neither starts nor
    ends with white space. *)
Lemma strip_core ws1 c1 mid c2 ws2 :
  forallb isspace ws1 = true → forallb isspace ws2 = true →
  isspace c1 = false → isspace c2 = false →
  strip (ws1 ++ (c1 :: mid ++ [c2]) ++ ws2) = c1 :: mid ++ [c2].
Proof.
  intros H1 H2 Hc1 Hc2. unfold strip.
  rewrite (assoc_L (++)), rstrip_spaces by done.
  replace (ws1 ++ c1 :: mid ++ [c2]) with ((ws1 ++ c1 :: mid) ++ [c2])
    by by rewrite <- (assoc_L (++)).
  rewrite rstrip_nonspace by done.
  rewrite <- (assoc_L (++)). simpl.
  rewrite lstrip_spaces by done. by apply lstrip_nonspace.
Qed.

Lemma strip_nil : strip [] = [].
Proof. reflexivity. Qed.

Lemma strip_spaces_r s ws :
  forallb isspace ws = true → strip (s ++ ws) = strip s.
Proof. intros. unfold strip. by rewrite rstrip_spaces. Qed.

Lemma join_cons sep (p : str) (ps : list str) :
  ps ≠ [] → join sep (p :: ps) = p ++ sep ++ join sep ps.
Proof. by destruct ps. Qed.

Lemma join_snoc sep (ps : list str) (p : str) :
  ps ≠ [] → join sep (ps ++ [p]) = join sep ps ++ sep ++ p.
Proof.
  induction ps as [|q ps IH]; [done|]. intros _.
  destruct ps as [|q' ps]; [done|].
  change ((q :: q' :: ps) ++ [p]) with (q :: ((q' :: ps) ++ [p])).
  rewrite join_cons by done. rewrite IH by done.
  rewrite (join_cons _ q (q' :: ps)) by done.
  by rewrite <- !(assoc_L (++)).
Qed.

(** Lines that each end with a line break are the lines joined by line
    breaks, followed by one more. *)
Lemma concat_lines (lines : list str) :
  lines ≠ [] → List.concat ((λ l, l ++ nl) <$> lines) = join nl lines ++ nl.
Proof.
  induction lines as [|l lines IH]; [done|]. intros _.
  destruct lines as [|l' lines]; simpl.
  - by rewrite app_nil_r.
  - simpl in IH. rewrite IH by done. by rewrite <- !(assoc_L (++)).
Qed.

End Strings.

(** * Facts about the extraction (lines 98-119) *)

Section Extraction.
Implicit Types (m msg : ThreadMessage) (msgs : list ThreadMessage).
Implicit Types (citations : list str) (annotations : list UrlCitation).

Lemma select_response_snoc msgs msg :
  select_response (msgs ++ [msg]) =
    if decide (role msg = AGENT) then Some msg else select_response msgs.
Proof. unfold select_response. by rewrite fold_left_app. Qed.

(** The selected message is the last one of the agent role. *)
Lemma select_response_last before m after :
  role m = AGENT → Forall (λ msg, role msg ≠ AGENT) after →
  select_response (before ++ m :: after) = Some m.
Proof.
  intros Hm. induction after as [|msg after IH] using rev_ind; intros Hafter.
  - rewrite select_response_snoc. by case_decide.
  - apply Forall_app in Hafter as [Hafter Hmsg%Forall_inv].
    change (before ++ m :: after ++ [msg])
      with (before ++ (m :: after) ++ [msg]).
    rewrite (assoc_L (++)), select_response_snoc.
    case_decide; [done|]. by apply IH.
Qed.

Lemma select_response_none msgs :
  Forall (λ msg, role msg ≠ AGENT) msgs → select_response msgs = None.
Proof.
  induction msgs as [|msg msgs IH] using rev_ind; [done|].
  intros [Hmsgs Hmsg%Forall_inv]%Forall_app.
  rewrite select_response_snoc. case_decide; [done|]. by apply IH.
Qed.

Lemma append_texts_concat (result : str) (texts : list str) :
  append_texts result texts = result ++ List.concat ((λ t, t ++ nl) <$> texts).
Proof.
  revert result. induction texts as [|t texts IH]; intros result; simpl.
  - by rewrite app_nil_r.
  - unfold append_texts in *. simpl. rewrite IH.
    by rewrite <- !(assoc_L (++)).
Qed.

Lemma collect_citations_snoc citations annotations a :
  collect_citations citations (annotations ++ [a]) =
    let cs := collect_citations citations annotations in
    if decide (render a ∈ cs) then cs else cs ++ [render a].
Proof. unfold collect_citations. by rewrite fold_left_app. Qed.

(** The citation list has no duplicates, holds exactly the rendered
    annotations, and lists them by first occurrence. *)
Lemma collect_citations_spec annotations :
  let cs := collect_citations [] annotations in
  let rendered := render <$> annotations in
  NoDup cs
  ∧ (∀ c, c ∈ cs ↔ c ∈ rendered)
  ∧ (∀ i j x y, cs !! i = Some x → cs !! j = Some y → (i < j)%nat →
       ∃ k, rendered !! k = Some x ∧ y ∉ take k rendered).
Proof.
  induction annotations as [|a annotations (Hnd & Hin & Hord)] using rev_ind.
  { simpl. split; [constructor|]. split; [done|]. intros ? ? ? ? [=]. }
  cbv zeta in *. rewrite collect_citations_snoc. cbv zeta.
  rewrite fmap_app. simpl.
  set (cs := collect_citations [] annotations) in *.
  set (rendered := render <$> annotations) in *.
  assert (Hlift : ∀ x y k, rendered !! k = Some x → y ∉ take k rendered →
            (rendered ++ [render a]) !! k = Some x
            ∧ y ∉ take k (rendered ++ [render a])).
  { intros x y k Hk Hy. pose proof (lookup_lt_Some _ _ _ Hk) as Hlt.
    rewrite lookup_app_l by done. split; [done|].
    rewrite take_app_le by lia. done. }
  case_decide as Ha.
  - split; [done|]. split.
    + intros c. rewrite elem_of_app, list_elem_of_singleton, <- Hin.
      split; [auto|]. intros [?| ->]; done.
    + intros i j x y Hi Hj Hij.
      destruct (Hord i j x y Hi Hj Hij) as (k & Hk & Hy). exists k. eauto.
  - split; [|split].
    + apply NoDup_app. split; [done|]. split; [|apply NoDup_singleton].
      intros c Hc ->%list_elem_of_singleton. done.
    + intros c. rewrite !elem_of_app, Hin. done.
    + intros i j x y Hi Hj Hij.
      destruct (decide (j < List.length cs)%nat) as [Hlt|Hge].
      * rewrite lookup_app_l in Hi by lia. rewrite lookup_app_l in Hj by done.
        destruct (Hord i j x y Hi Hj Hij) as (k & Hk & Hy). exists k. eauto.
      * rewrite lookup_app_r in Hj by lia.
        apply list_lookup_singleton_Some in Hj as [Hj <-].
        rewrite lookup_app_l in Hi by lia.
        assert (x ∈ rendered) as (k & Hk)%list_elem_of_lookup.
        { apply Hin. by eapply list_elem_of_lookup_2. }
        exists k. apply Hlift; [done|].
        intros Hy%elem_of_take. destruct Hy as (? & Hy & _).
        apply Ha, Hin. by eapply list_elem_of_lookup_2.
Qed.

Lemma collect_citations_rendered annotations c :
  c ∈ collect_citations [] annotations → ∃ a, c = render a.
Proof.
  intros Hc. apply (collect_citations_spec annotations) in Hc.
  apply list_elem_of_fmap in Hc as (a & -> & _). eauto.
Qed.

End Extraction.

(** * The Sources section inside the stripped result *)

Section Sources.
Implicit Types (citations : list str) (annotations : list UrlCitation).

Lemma bullets_concat (result : str) citations :
  fold_left (λ result citation, result ++ (py "- " ++ citation ++ nl))
    citations result
  = result ++ List.concat ((λ l, l ++ nl) <$> ((λ c, py "- " ++ c) <$> citations)).
Proof.
  revert result. induction citations as [|c citations IH]; intros result; cbn.
  - by rewrite app_nil_r.
  - rewrite IH. by rewrite <- !app_assoc.
Qed.

(** What lines 116-119 append: two line breaks, then the header and the
    bullets as lines, each ended by a line break. *)
Lemma append_sources_lines (result : str) citations :
  citations ≠ [] →
  append_sources result citations
  = result ++ nl ++ nl
      ++ join nl (py "## Sources" :: ((λ c, py "- " ++ c) <$> citations)) ++ nl.
Proof.
  intros Hne. destruct citations as [|c citations]; [done|].
  unfold append_sources. rewrite bullets_concat.
  rewrite <- concat_lines by done.
  rewrite <- !app_assoc. do 3 f_equal.
Qed.

(** The header and the bullets of rendered citations start with [#] and
    end with the closing parenthesis of the last citation. *)
Lemma sources_lines_ends citations :
  citations ≠ [] → (∀ c, c ∈ citations → ∃ a, c = render a) →
  ∃ mid, join nl (py "## Sources" :: ((λ c, py "- " ++ c) <$> citations))
         = 35 :: mid ++ [41].
Proof.
  intros Hne Hr.
  destruct citations as [|c0 cs0] using rev_ind; [done|]. clear IHcs0 Hne.
  destruct (Hr c0) as [a ->]; [set_solver|].
  rewrite fmap_app.
  change (py "## Sources" :: ((λ c, py "- " ++ c) <$> cs0)
            ++ ((λ c, py "- " ++ c) <$> [render a]))
    with ((py "## Sources" :: ((λ c, py "- " ++ c) <$> cs0))
            ++ [py "- " ++ render a]).
  rewrite join_snoc by done.
  assert (∃ rest, join nl (py "## Sources" :: ((λ c, py "- " ++ c) <$> cs0))
                  = 35 :: rest) as [rest ->].
  { destruct ((λ c, py "- " ++ c) <$> cs0); cbn; eauto. }
  unfold render.
  exists (rest ++ nl ++ py "- " ++ py "[" ++ title a ++ py "](" ++ url a).
  change (py ")") with [41]. unfold nl. by list_norm.
Qed.

(** The stripped result: the text without its leading white space and,
    after a blank line, the Sources lines without their last line break;
    the Sources lines alone when the text is blank. *)
Lemma strip_sources (text : str) citations :
  citations ≠ [] → (∀ c, c ∈ citations → ∃ a, c = render a) →
  strip (append_sources text citations)
  = (match lstrip text with [] => [] | _ :: _ => lstrip text ++ nl ++ nl end)
      ++ join nl (py "## Sources" :: ((λ c, py "- " ++ c) <$> citations)).
Proof.
  intros Hne Hr. rewrite append_sources_lines by done.
  destruct (sources_lines_ends citations Hne Hr) as [mid ->].
  destruct (lstrip_split text) as (ws & Hws & Htext & Hl).
  rewrite Htext at 1.
  destruct Hl as [->|(c & r & -> & Hc)].
  - rewrite app_nil_r.
    replace (ws ++ nl ++ nl ++ (35 :: mid ++ [41]) ++ nl)
      with ((ws ++ nl ++ nl) ++ (35 :: mid ++ [41]) ++ nl)
      by (by list_norm).
    apply strip_core; try done.
    by rewrite forallb_app, Hws.
  - replace ((ws ++ c :: r) ++ nl ++ nl ++ (35 :: mid ++ [41]) ++ nl)
      with (ws ++ (c :: (r ++ nl ++ nl ++ 35 :: mid) ++ [41]) ++ nl)
      by (by list_norm).
    rewrite strip_core by done.
    by list_norm.
Qed.

End Sources.

(** * Facts about [query_agent] *)

Section Orchestrator_facts.
Context {σ : Type} `{client : AgentClient σ}.
Implicit Types (w : Session σ) (run : ThreadRun) (d : Dict).

Lemma bind_Return {S A B} (m : M S A) (k : A → M S B) s a s' :
  m s = Some (Return a, s') → bind m k s = k a s'.
Proof. unfold bind. by intros ->. Qed.

Lemma bind_Raise {S A B} (m : M S A) (k : A → M S B) s e s' :
  m s = Some (Raise e, s') → bind m k s = Some (Raise e, s').
Proof. unfold bind. by intros ->. Qed.

Lemma remote_Return {A} c (f : σ → (exn + A) * σ) w a p :
  f (platform w) = (inr a, p) →
  remote c f w
  = Some (Return a, {| platform := p; trace := trace w ++ [Remote c None] |}).
Proof. unfold remote. by intros ->. Qed.

Lemma remote_Raise {A} c (f : σ → (exn + A) * σ) w e p :
  f (platform w) = (inl e, p) →
  remote c f w
  = Some (Raise e, {| platform := p; trace := trace w ++ [Remote c (Some e)] |}).
Proof. unfold remote. by intros ->. Qed.

(** Lines 87-96: a failed run is reported, and nothing is listed. *)
Lemma finish_run_failed thread_id run_id run w :
  status run = py "failed" →
  finish_run thread_id run_id run w
  = Some (Return (failure_result (py "Agent run failed: " ++ last_error run)
                    thread_id run_id),
          logged w (LogError (py "Agent run failed: " ++ last_error run))).
Proof. intros Hst. unfold finish_run. by rewrite decide_True. Qed.

(** Lines 98-127: any other terminal status leads to the extraction. *)
Lemma finish_run_listed thread_id run_id run w msgs p :
  status run ≠ py "failed" →
  messages_list thread_id (platform w) = (inr msgs, p) →
  finish_run thread_id run_id run w
  = Some (Return (success_result thread_id run_id
                    (extract (select_response msgs)).1
                    (extract (select_response msgs)).2),
          {| platform := p;
             trace := trace w ++ [Remote (MessagesList thread_id) None] |}).
Proof.
  intros Hst Hl. unfold finish_run. rewrite decide_False by done.
  erewrite bind_Return by by apply remote_Return.
  by destruct (extract (select_response msgs)).
Qed.

Lemma query_agent_body_started fuel agent_id query w thread_id run_id run w1 :
  start_run fuel agent_id query w = Some (Return (thread_id, run_id, run), w1) →
  query_agent_body fuel agent_id query w = finish_run thread_id run_id run w1.
Proof. intros Hs. unfold query_agent_body, bind. by rewrite Hs. Qed.

Lemma query_agent_Return fuel agent_id query w d w' :
  query_agent_body fuel agent_id query w = Some (Return d, w') →
  query_agent fuel agent_id query w = Some (Return d, w').
Proof. unfold query_agent, try_except. by intros ->. Qed.

(** Lines 129-131: the exception is logged and raised again. *)
Lemma query_agent_Raise fuel agent_id query w e w' :
  query_agent_body fuel agent_id query w = Some (Raise e, w') →
  query_agent fuel agent_id query w
  = Some (Raise e,
          logged w' (LogError (py "Agent query failed - ID: " ++ agent_id
                               ++ py ", Error: " ++ exn_str e))).
Proof. unfold query_agent, try_except. by intros ->. Qed.

(** ** Where the body can raise *)

Lemma traced_ret {A} (a : A) : traced (σ := σ) (ret a).
Proof.
  intros w o w' [= <- <-]. exists []. rewrite app_nil_r. split; [done|].
  constructor.
Qed.

Lemma traced_emit ev :
  match ev with Remote _ (Some _) => False | _ => True end → traced (σ := σ) (emit ev).
Proof.
  intros Hev w o w' [= <- <-]. exists [ev]. split; [done|].
  by constructor.
Qed.

Lemma traced_remote {A} c (f : σ → (exn + A) * σ) : traced (remote c f).
Proof.
  intros w o w'. unfold remote. destruct (f (platform w)) as [[e|a] p].
  - intros [= <- <-]. exists [Remote c (Some e)]. split; [done|].
    exists [], c. split; [done|]. constructor.
  - intros [= <- <-]. exists [Remote c None]. split; [done|].
    by repeat constructor.
Qed.

Lemma traced_bind {A B} (m : M (Session σ) A) (k : A → M (Session σ) B) :
  traced m → (∀ a, traced (k a)) → traced (bind m k).
Proof.
  intros Hm Hk w o w'. unfold bind.
  destruct (m w) as [[[a|e] w1]|] eqn:Hmw; [| |done].
  - intros Hka. destruct (Hm _ _ _ Hmw) as (t1 & Ht1 & Hq1).
    destruct (Hk a _ _ _ Hka) as (t2 & Ht2 & Hq2).
    exists (t1 ++ t2). split; [by rewrite Ht2, Ht1, app_assoc|].
    destruct o as [b|e].
    + by apply Forall_app.
    + destruct Hq2 as (t0 & c & -> & Hq0). exists (t1 ++ t0), c.
      split; [by rewrite app_assoc|]. by apply Forall_app.
  - intros [= <- <-]. by apply (Hm _ _ _ Hmw).
Qed.

Lemma traced_poll fuel thread_id run : traced (poll fuel thread_id run).
Proof.
  revert run. induction fuel as [|fuel IH]; intros run; simpl;
    destruct (pending (status run)); try apply traced_ret.
  - by intros w o w'.
  - apply traced_bind; [by apply traced_emit|]. intros _.
    apply traced_bind; [apply traced_remote|]. done.
Qed.

Lemma traced_start_run fuel agent_id query :
  traced (start_run fuel agent_id query).
Proof.
  unfold start_run.
  repeat (apply traced_bind; [first [apply traced_remote|apply traced_poll]|];
          intros ?).
  apply traced_ret.
Qed.

Lemma traced_finish_run thread_id run_id run :
  traced (finish_run thread_id run_id run).
Proof.
  unfold finish_run. case_decide.
  - apply traced_bind; [by apply traced_emit|]. intros _. apply traced_ret.
  - apply traced_bind; [apply traced_remote|]. intros msgs.
    destruct (extract (select_response msgs)). apply traced_ret.
Qed.

Lemma traced_query_agent_body fuel agent_id query :
  traced (query_agent_body fuel agent_id query).
Proof.
  unfold query_agent_body. apply traced_bind; [apply traced_start_run|].
  intros [[thread_id run_id] run]. apply traced_finish_run.
Qed.

End Orchestrator_facts.

(** * The result of a run that reached a terminal status *)

Section Results.
Context {σ : Type} `{client : AgentClient σ}.
Implicit Types (w : Session σ) (run : ThreadRun) (d : Dict).
Implicit Types (m msg : ThreadMessage) (msgs : list ThreadMessage).

(** After a run that did not fail, the result is extracted from the
    listed messages. *)
Lemma query_agent_extracts fuel agent_id query w thread_id run_id run w1 msgs p :
  start_run fuel agent_id query w = Some (Return (thread_id, run_id, run), w1) →
  status run ≠ py "failed" →
  messages_list thread_id (platform w1) = (inr msgs, p) →
  query_agent fuel agent_id query w
  = Some (Return (success_result thread_id run_id
                    (extract (select_response msgs)).1
                    (extract (select_response msgs)).2),
          {| platform := p;
             trace := trace w1 ++ [Remote (MessagesList thread_id) None] |}).
Proof.
  intros Hs Hst Hl. apply query_agent_Return.
  rewrite (query_agent_body_started _ _ _ _ _ _ _ _ Hs).
  by apply finish_run_listed.
Qed.

Lemma success_result_lookup thread_id run_id (result : str) citations :
  let d := success_result thread_id run_id result citations in
  d !! "success" = Some (VBool true)
  ∧ d !! "thread_id" = Some (VStr thread_id)
  ∧ d !! "run_id" = Some (VStr run_id)
  ∧ d !! "result" = Some (VStr (strip result))
  ∧ d !! "citations" = Some (VList citations)
  ∧ d !! "error" = None.
Proof. repeat split. Qed.

Lemma failure_result_lookup (error_msg thread_id run_id : str) :
  let d := failure_result error_msg thread_id run_id in
  d !! "success" = Some (VBool false)
  ∧ d !! "error" = Some (VStr error_msg)
  ∧ d !! "thread_id" = Some (VStr thread_id)
  ∧ d !! "run_id" = Some (VStr run_id)
  ∧ d !! "result" = Some (VStr (py "Error: " ++ error_msg))
  ∧ d !! "citations" = None.
Proof. repeat split. Qed.

(** C2: for every run whose terminal status is [failed], [query_agent]
    returns a result with [success = False], a non-empty [error], the
    identifiers of the thread and of the run (non-empty, as the platform
    issued them), and no [citations] entry.  Nothing is listed or
    extracted: the only event after the polling is the logged error. *)
Theorem failed_run_result fuel agent_id query w thread_id run_id run w1 :
  start_run fuel agent_id query w = Some (Return (thread_id, run_id, run), w1) →
  status run = py "failed" →
  thread_id ≠ [] → run_id ≠ [] →
  ∃ d error tid rid,
    query_agent fuel agent_id query w
    = Some (Return d, logged w1 (LogError error))
    ∧ d !! "success" = Some (VBool false)
    ∧ d !! "error" = Some (VStr error)
    ∧ error = py "Agent run failed: " ++ last_error run ∧ error ≠ []
    ∧ d !! "thread_id" = Some (VStr tid) ∧ tid = thread_id ∧ tid ≠ []
    ∧ d !! "run_id" = Some (VStr rid) ∧ rid = run_id ∧ rid ≠ []
    ∧ d !! "citations" = None.
Proof.
  intros Hs Hst Htid Hrid.
  exists (failure_result (py "Agent run failed: " ++ last_error run)
            thread_id run_id),
    (py "Agent run failed: " ++ last_error run), thread_id, run_id.
  split.
  - apply query_agent_Return.
    rewrite (query_agent_body_started _ _ _ _ _ _ _ _ Hs).
    by apply finish_run_failed.
  - destruct (failure_result_lookup (py "Agent run failed: " ++ last_error run)
                thread_id run_id) as (? & ? & ? & ? & ? & ?).
    repeat split; done.
Qed.

(** C5: the extraction uses the last agent-role message of the listing:
    whatever precedes it, agent messages included, has no part in the
    result text or in the citations. *)
Theorem last_agent_message_used
    fuel agent_id query w thread_id run_id run w1 before m after p :
  start_run fuel agent_id query w = Some (Return (thread_id, run_id, run), w1) →
  status run ≠ py "failed" →
  messages_list thread_id (platform w1) = (inr (before ++ m :: after), p) →
  role m = AGENT →
  Forall (λ msg, role msg ≠ AGENT) after →
  ∃ d citations,
    query_agent fuel agent_id query w
    = Some (Return d,
            {| platform := p;
               trace := trace w1 ++ [Remote (MessagesList thread_id) None] |})
    ∧ select_response (before ++ m :: after) = Some m
    ∧ citations = collect_citations [] (url_citation_annotations m)
    ∧ d !! "citations" = Some (VList citations)
    ∧ d !! "result"
      = Some (VStr (strip (append_sources
                             (append_texts [] (text_messages m)) citations)))
    ∧ d !! "success" = Some (VBool true).
Proof.
  intros Hs Hst Hl Hm Hafter.
  pose proof (select_response_last before m after Hm Hafter) as Hsel.
  eexists _, _. split; [by eapply query_agent_extracts|].
  rewrite Hsel. repeat split.
Qed.

(** C6: a run that completes with no agent-authored message in the thread
    yields [success = True], an empty [result] and an empty [citations]
    list. *)
Theorem no_agent_message_result
    fuel agent_id query w thread_id run_id run w1 msgs p :
  start_run fuel agent_id query w = Some (Return (thread_id, run_id, run), w1) →
  status run ≠ py "failed" →
  messages_list thread_id (platform w1) = (inr msgs, p) →
  Forall (λ msg, role msg ≠ AGENT) msgs →
  ∃ d,
    query_agent fuel agent_id query w
    = Some (Return d,
            {| platform := p;
               trace := trace w1 ++ [Remote (MessagesList thread_id) None] |})
    ∧ d !! "success" = Some (VBool true)
    ∧ d !! "result" = Some (VStr [])
    ∧ d !! "citations" = Some (VList []).
Proof.
  intros Hs Hst Hl Hnone.
  eexists. split; [by eapply query_agent_extracts|].
  rewrite (select_response_none msgs Hnone). repeat split.
Qed.

End Results.

(** * The result text and the citations *)

Section Result_text.
Context {σ : Type} `{client : AgentClient σ}.
Implicit Types (w : Session σ) (run : ThreadRun) (d : Dict).
Implicit Types (m msg : ThreadMessage) (msgs : list ThreadMessage).

(** Without citations the stripped text is the segments joined by line
    breaks, stripped. *)
Lemma strip_texts (segments : list str) :
  strip (append_texts [] segments) = strip (join nl segments).
Proof.
  rewrite append_texts_concat. destruct segments as [|s segments]; [done|].
  rewrite concat_lines, app_nil_l by done. by apply strip_spaces_r.
Qed.

(** C7: for a completed run whose selected agent message has the text
    segments [segments] and no citation annotation, [result] is the
    segments joined by line breaks, stripped, and nothing is appended to
    it; for the segments ["A"; "B"] it is ["A\nB"], with no Sources
    section. *)
Theorem text_segments_joined
    fuel agent_id query w thread_id run_id run w1 msgs m segments p :
  start_run fuel agent_id query w = Some (Return (thread_id, run_id, run), w1) →
  status run ≠ py "failed" →
  messages_list thread_id (platform w1) = (inr msgs, p) →
  select_response msgs = Some m →
  text_messages m = segments →
  url_citation_annotations m = [] →
  ∃ d result,
    query_agent fuel agent_id query w
    = Some (Return d,
            {| platform := p;
               trace := trace w1 ++ [Remote (MessagesList thread_id) None] |})
    ∧ d !! "result" = Some (VStr result)
    ∧ d !! "citations" = Some (VList [])
    ∧ result = strip (join nl segments)
    ∧ (segments = [py "A"; py "B"] →
       result = py "A" ++ nl ++ py "B"
       ∧ contains result (py "Sources") = false).
Proof.
  intros Hs Hst Hl Hsel Htexts Hanns.
  eexists _, _. split; [by eapply query_agent_extracts|].
  rewrite Hsel. unfold extract. rewrite Htexts, Hanns.
  change (collect_citations [] []) with (@nil str).
  split; [reflexivity|]. split; [reflexivity|].
  change (append_sources (append_texts [] segments) [])
    with (append_texts [] segments). cbn [fst].
  split; [apply strip_texts|].
  intros ->. by vm_compute.
Qed.

(** C4: the citations of the result are the rendered annotations of the
    selected message without repeats: no duplicates, the same strings, in
    the order of their first occurrence among the annotations.  When the
    list is not empty, [result] ends with the header line followed by one
    bulleted line per citation, in that order. *)
Theorem citations_deduplicated
    fuel agent_id query w thread_id run_id run w1 msgs m p :
  start_run fuel agent_id query w = Some (Return (thread_id, run_id, run), w1) →
  status run ≠ py "failed" →
  messages_list thread_id (platform w1) = (inr msgs, p) →
  select_response msgs = Some m →
  ∃ d citations result,
    query_agent fuel agent_id query w
    = Some (Return d,
            {| platform := p;
               trace := trace w1 ++ [Remote (MessagesList thread_id) None] |})
    ∧ d !! "citations" = Some (VList citations)
    ∧ d !! "result" = Some (VStr result)
    ∧ NoDup citations
    ∧ (∀ c, c ∈ citations ↔ c ∈ render <$> url_citation_annotations m)
    ∧ (∀ i j x y,
         citations !! i = Some x → citations !! j = Some y → (i < j)%nat →
         ∃ k, (render <$> url_citation_annotations m) !! k = Some x
              ∧ y ∉ take k (render <$> url_citation_annotations m))
    ∧ (citations ≠ [] →
       ∃ text,
         result = text ++ join nl (py "## Sources"
                                     :: ((λ c, py "- " ++ c) <$> citations))).
Proof.
  intros Hs Hst Hl Hsel.
  eexists _, _, _. split; [by eapply query_agent_extracts|].
  rewrite Hsel. unfold extract. cbn [fst snd].
  split; [reflexivity|]. split; [reflexivity|].
  destruct (collect_citations_spec (url_citation_annotations m))
    as (Hnd & Hin & Hord).
  split; [done|]. split; [done|]. split; [done|].
  intros Hne. eexists. apply strip_sources; [done|].
  apply collect_citations_rendered.
Qed.

(** C8: for every result with a non-empty citations list, the Sources
    section recomputed from that list alone (the header line followed by
    one bulleted line per citation) is exactly the end of [result]; it is
    also what lines 116-119 generate from the list, stripped. *)
Theorem sources_section_round_trip
    fuel agent_id query w thread_id run_id run w1 msgs p :
  start_run fuel agent_id query w = Some (Return (thread_id, run_id, run), w1) →
  status run ≠ py "failed" →
  messages_list thread_id (platform w1) = (inr msgs, p) →
  ∃ d citations result,
    query_agent fuel agent_id query w
    = Some (Return d,
            {| platform := p;
               trace := trace w1 ++ [Remote (MessagesList thread_id) None] |})
    ∧ d !! "citations" = Some (VList citations)
    ∧ d !! "result" = Some (VStr result)
    ∧ (citations ≠ [] →
       sources_section citations `suffix_of` result
       ∧ strip (append_sources [] citations) = sources_section citations).
Proof.
  intros Hs Hst Hl.
  eexists _, _, _. split; [by eapply query_agent_extracts|].
  split; [reflexivity|]. split; [reflexivity|].
  destruct (select_response msgs) as [m|]; [|done].
  unfold extract. cbn [fst snd]. intros Hne.
  pose proof (collect_citations_rendered (url_citation_annotations m)) as Hr.
  split.
  - eexists. by apply strip_sources.
  - by rewrite strip_sources.
Qed.

End Result_text.

(** * Errors: the agent lookup, remote exceptions, configuration *)

Section Errors.
Context {σ : Type} `{client : AgentClient σ}.
Variable AIProjectClient : str → exn + σ.
Implicit Types (w : Session σ) (g : Globals σ) (d : Dict).

(** C10: [get_agent] is the first remote call.  When the agent
    identifier does not reference an existing agent, so that the lookup
    raises, [query_agent] raises that exception whatever the fuel: the
    lookup and the logged error are the only events, no thread, message
    or run is created, no result (hence no identifier) is returned, and
    the platform is left as the failed lookup left it. *)
Theorem agent_lookup_first fuel agent_id query w e p :
  agents_get_agent agent_id (platform w) = (inl e, p) →
  ∃ t,
    query_agent fuel agent_id query w
    = Some (Raise e, {| platform := p; trace := trace w ++ t |})
    ∧ t = [Remote (GetAgent agent_id) (Some e);
           LogError (py "Agent query failed - ID: " ++ agent_id
                     ++ py ", Error: " ++ exn_str e)]
    ∧ Forall (λ ev, is_creation ev = false) t.
Proof.
  intros Hget.
  assert (query_agent_body fuel agent_id query w
          = Some (Raise e, {| platform := p;
                              trace := trace w ++ [Remote (GetAgent agent_id) (Some e)] |}))
    as Hbody.
  { unfold query_agent_body, start_run.
    erewrite bind_Raise; [done|].
    erewrite bind_Raise; [done|]. by apply remote_Raise. }
  eexists. split; [|split; [reflexivity|by repeat constructor]].
  rewrite (query_agent_Raise _ _ _ _ _ _ Hbody).
  unfold logged. cbn [platform trace]. by rewrite <- app_assoc.
Qed.

(** ** The tool *)

Lemma bing_search_unconfigured fuel query g :
  truthy (AZURE_AI_FOUNDRY_PROJECT_ENDPOINT g)
  && truthy (AZURE_AI_FOUNDRY_AGENT_ID g) = false →
  bing_search AIProjectClient fuel query g
  = Some (Return (error_payload not_initialized_msg), g).
Proof. intros Hc. unfold bing_search, bind, get_globals. by rewrite Hc. Qed.

(** With both identifiers set and the client built, the tool returns what
    [query_agent] returns, and turns what it raises into a payload. *)
Lemma bing_search_ready fuel query g c agent_id :
  truthy (AZURE_AI_FOUNDRY_PROJECT_ENDPOINT g) = true →
  AZURE_AI_FOUNDRY_AGENT_ID g = Some agent_id → agent_id ≠ [] →
  AI_CLIENT g = Some c →
  bing_search AIProjectClient fuel query g
  = match query_agent fuel agent_id query {| platform := c; trace := events g |} with
    | Some (Return d, w) => Some (Return d, sync g w)
    | Some (Raise e, w) =>
        Some (Return (error_payload (py "Error performing Bing search: " ++ exn_str e)),
              recorded (sync g w)
                (LogError (py "Error performing Bing search: " ++ exn_str e)))
    | None => None
    end.
Proof.
  intros He Ha Hne Hc. unfold bing_search, bind, get_globals.
  rewrite He, Ha, Hc. destruct agent_id as [|x agent_id]; [done|].
  cbn [truthy andb negb ret]. rewrite Hc.
  unfold try_except, with_client. rewrite Ha. cbn [default].
  by destruct (query_agent _ _ _ _) as [[[d|e] w]|].
Qed.

(** C3: with the endpoint identifier or the agent identifier unset,
    [bing_search] returns at once the configuration-error payload, whose
    [error] string mentions "not initialized"; the globals, the shared
    client and the trace are untouched: no remote call is made and no
    client is built. *)
Theorem unconfigured_returns_error fuel query g :
  AZURE_AI_FOUNDRY_PROJECT_ENDPOINT g = None
  ∨ AZURE_AI_FOUNDRY_AGENT_ID g = None →
  ∃ payload msg,
    bing_search AIProjectClient fuel query g = Some (Return payload, g)
    ∧ payload = error_payload msg
    ∧ payload !! "error" = Some (VStr msg)
    ∧ contains msg (py "not initialized") = true.
Proof.
  intros Hunset. exists (error_payload not_initialized_msg), not_initialized_msg.
  split; [|by vm_compute].
  apply bing_search_unconfigured.
  destruct Hunset as [-> | ->]; [done|]. apply andb_false_r.
Qed.

(** C9: when a remote call of [query_agent] raises, it is the last remote
    call of the invocation (nothing is retried), and [bing_search] returns
    (it does not raise) the payload [{"error": ...}] with the message of
    the exception and with neither [thread_id] nor [run_id]; after the
    failing call only the two error logs follow.  A run that the platform
    reports as failed is no exception: for it [bing_search] returns the
    structured result, which does carry both identifiers. *)
Theorem remote_exception_payload
    fuel query g c agent_id o w1 t failing e :
  truthy (AZURE_AI_FOUNDRY_PROJECT_ENDPOINT g) = true →
  AZURE_AI_FOUNDRY_AGENT_ID g = Some agent_id → agent_id ≠ [] →
  AI_CLIENT g = Some c →
  query_agent_body fuel agent_id query {| platform := c; trace := events g |}
  = Some (o, w1) →
  trace w1 = events g ++ t →
  Remote failing (Some e) ∈ t →
  o = Raise e
  ∧ (∃ t0, t = t0 ++ [Remote failing (Some e)] ∧ quiet t0)
  ∧ (∃ payload g',
       bing_search AIProjectClient fuel query g = Some (Return payload, g')
       ∧ payload = error_payload (py "Error performing Bing search: " ++ exn_str e)
       ∧ payload !! "thread_id" = None
       ∧ payload !! "run_id" = None
       ∧ AI_CLIENT g' = Some (platform w1)
       ∧ events g'
         = trace w1
             ++ [LogError (py "Agent query failed - ID: " ++ agent_id
                           ++ py ", Error: " ++ exn_str e);
                 LogError (py "Error performing Bing search: " ++ exn_str e)])
  ∧ (∀ fuel' query' thread_id run_id run w2,
       start_run fuel' agent_id query' {| platform := c; trace := events g |}
       = Some (Return (thread_id, run_id, run), w2) →
       status run = py "failed" →
       ∃ d g',
         bing_search AIProjectClient fuel' query' g = Some (Return d, g')
         ∧ d !! "success" = Some (VBool false)
         ∧ d !! "thread_id" = Some (VStr thread_id)
         ∧ d !! "run_id" = Some (VStr run_id)).
Proof.
  intros He Ha Hne Hc Hbody Htrace Hin.
  destruct (traced_query_agent_body _ _ _ _ _ _ Hbody) as (t' & Ht' & Ho).
  cbn [trace] in Ht'. rewrite Htrace in Ht'.
  apply app_inv_head in Ht' as <-.
  assert (o = Raise e ∧ ∃ t0, t = t0 ++ [Remote failing (Some e)] ∧ quiet t0)
    as [-> Hlast].
  { destruct o as [d|e'].
    - exfalso. unfold quiet in Ho. rewrite Forall_forall in Ho.
      by apply (Ho _ Hin).
    - destruct Ho as (t0 & c' & -> & Hq).
      apply elem_of_app in Hin as [Hin|Hin].
      + exfalso. unfold quiet in Hq. rewrite Forall_forall in Hq.
        by apply (Hq _ Hin).
      + apply list_elem_of_singleton in Hin as [= -> ->]. eauto. }
  split; [done|]. split; [done|]. split.
  2:{ intros fuel' query' thread_id run_id run w2 Hs Hst.
      eexists _, _. split.
      - rewrite (bing_search_ready _ _ _ _ _ He Ha Hne Hc).
        erewrite query_agent_Return; [done|].
        rewrite (query_agent_body_started _ _ _ _ _ _ _ _ Hs).
        by apply finish_run_failed.
      - repeat split. }
  eexists _, _. split.
  - rewrite (bing_search_ready _ _ _ _ _ He Ha Hne Hc).
    by rewrite (query_agent_Raise _ _ _ _ _ _ Hbody).
  - split; [done|]. split; [done|]. split; [done|]. split; [done|].
    cbn. by rewrite <- app_assoc.
Qed.

End Errors.

(** * The polling loop *)

Section Polling.
Context {σ : Type} `{client : AgentClient σ}.
Implicit Types (w : Session σ) (run : ThreadRun).

(** A terminal status ends the loop, whatever the fuel. *)
Lemma poll_done fuel thread_id run w :
  pending (status run) = false →
  poll fuel thread_id run w = Some (Return run, w).
Proof. intros Hp. destruct fuel; simpl; by rewrite Hp. Qed.

(** One iteration: one sleep of one second, then one [runs.get]. *)
Lemma poll_step fuel thread_id run w run' p :
  pending (status run) = true →
  runs_get thread_id (run_id_of run) (platform w) = (inr run', p) →
  poll (S fuel) thread_id run w
  = poll fuel thread_id run'
      {| platform := p;
         trace := trace w ++ [Sleep 1; Remote (RunsGet thread_id (run_id_of run)) None] |}.
Proof.
  intros Hp Hget. simpl. rewrite Hp. unfold bind, emit, remote, logged.
  cbn [platform trace]. rewrite Hget. by rewrite <- app_assoc.
Qed.

(** A [runs.get] that raises ends the loop with that exception. *)
Lemma poll_raises fuel thread_id run w e p :
  pending (status run) = true →
  runs_get thread_id (run_id_of run) (platform w) = (inl e, p) →
  poll (S fuel) thread_id run w
  = Some (Raise e,
          {| platform := p;
             trace := trace w ++ [Sleep 1;
                                  Remote (RunsGet thread_id (run_id_of run)) (Some e)] |}).
Proof.
  intros Hp Hget. simpl. rewrite Hp. unfold bind, emit, remote, logged.
  cbn [platform trace]. rewrite Hget. by rewrite <- app_assoc.
Qed.

(** Lines 73-81: the four calls before the loop. *)
Lemma start_run_created fuel agent_id query w p1 thread p2 p3 run p4 :
  agents_get_agent agent_id (platform w) = (inr (), p1) →
  threads_create p1 = (inr thread, p2) →
  messages_create (thread_id_of thread) USER query p2 = (inr (), p3) →
  runs_create (thread_id_of thread) agent_id p3 = (inr run, p4) →
  start_run fuel agent_id query w
  = bind (poll fuel (thread_id_of thread) run)
      (λ run', ret (thread_id_of thread, run_id_of run, run'))
      {| platform := p4;
         trace := trace w
                  ++ [Remote (GetAgent agent_id) None;
                      Remote ThreadsCreate None;
                      Remote (MessagesCreate (thread_id_of thread) USER query) None;
                      Remote (RunsCreate (thread_id_of thread) agent_id) None] |}.
Proof.
  intros H1 H2 H3 H4. unfold start_run.
  erewrite bind_Return by by apply remote_Return.
  erewrite bind_Return by (by apply remote_Return).
  erewrite bind_Return by (by apply remote_Return).
  erewrite bind_Return by (by apply remote_Return).
  cbn [platform trace]. by rewrite <- !app_assoc.
Qed.

(** In every execution of the loop there are as many sleeps as calls to
    [runs.get]: each iteration does one of each. *)
Lemma poll_balanced fuel thread_id run w o w' :
  poll fuel thread_id run w = Some (o, w') →
  ∃ t, trace w' = trace w ++ t ∧ sleeps t = runs_get_calls t.
Proof.
  revert run w. induction fuel as [|fuel IH]; intros run w; simpl;
    destruct (pending (status run)) eqn:Hp; try done.
  - intros [= <- <-]. exists []. by rewrite app_nil_r.
  - unfold bind, emit, remote, logged. cbn [platform trace].
    destruct (runs_get thread_id (run_id_of run) (platform w)) as [[e|run'] p].
    + intros [= <- <-].
      exists [Sleep 1; Remote (RunsGet thread_id (run_id_of run)) (Some e)].
      split; [by rewrite <- app_assoc|done].
    + intros (t & Ht & Hbal)%IH. cbn [trace] in Ht.
      exists (Sleep 1 :: Remote (RunsGet thread_id (run_id_of run)) None :: t).
      split; [by rewrite Ht, <- !app_assoc|].
      unfold sleeps, runs_get_calls in *. cbn. by rewrite Hbal.
  - intros [= <- <-]. exists []. by rewrite app_nil_r.
Qed.

(** ** Each remote call that raises ends the body, whatever the fuel *)

Lemma threads_create_raises fuel agent_id query w p1 e p2 :
  agents_get_agent agent_id (platform w) = (inr (), p1) →
  threads_create p1 = (inl e, p2) →
  query_agent_body fuel agent_id query w
  = Some (Raise e,
          {| platform := p2;
             trace := trace w ++ [Remote (GetAgent agent_id) None;
                                  Remote ThreadsCreate (Some e)] |}).
Proof.
  intros H1 H2. unfold query_agent_body, start_run.
  erewrite bind_Raise; [done|].
  erewrite bind_Return by (by apply remote_Return).
  erewrite bind_Raise; [|by apply remote_Raise].
  cbn [platform trace]. by rewrite <- !app_assoc.
Qed.

Lemma messages_create_raises fuel agent_id query w p1 thread p2 e p3 :
  agents_get_agent agent_id (platform w) = (inr (), p1) →
  threads_create p1 = (inr thread, p2) →
  messages_create (thread_id_of thread) USER query p2 = (inl e, p3) →
  query_agent_body fuel agent_id query w
  = Some (Raise e,
          {| platform := p3;
             trace := trace w
                      ++ [Remote (GetAgent agent_id) None;
                          Remote ThreadsCreate None;
                          Remote (MessagesCreate (thread_id_of thread) USER query)
                            (Some e)] |}).
Proof.
  intros H1 H2 H3. unfold query_agent_body, start_run.
  erewrite bind_Raise; [done|].
  erewrite bind_Return by (by apply remote_Return).
  erewrite bind_Return by (by apply remote_Return).
  erewrite bind_Raise; [|by apply remote_Raise].
  cbn [platform trace]. by rewrite <- !app_assoc.
Qed.

Lemma runs_create_raises fuel agent_id query w p1 thread p2 p3 e p4 :
  agents_get_agent agent_id (platform w) = (inr (), p1) →
  threads_create p1 = (inr thread, p2) →
  messages_create (thread_id_of thread) USER query p2 = (inr (), p3) →
  runs_create (thread_id_of thread) agent_id p3 = (inl e, p4) →
  query_agent_body fuel agent_id query w
  = Some (Raise e,
          {| platform := p4;
             trace := trace w
                      ++ [Remote (GetAgent agent_id) None;
                          Remote ThreadsCreate None;
                          Remote (MessagesCreate (thread_id_of thread) USER query) None;
                          Remote (RunsCreate (thread_id_of thread) agent_id)
                            (Some e)] |}).
Proof.
  intros H1 H2 H3 H4. unfold query_agent_body, start_run.
  erewrite bind_Raise; [done|].
  erewrite bind_Return by (by apply remote_Return).
  erewrite bind_Return by (by apply remote_Return).
  erewrite bind_Return by (by apply remote_Return).
  erewrite bind_Raise; [|by apply remote_Raise].
  cbn [platform trace]. by rewrite <- !app_assoc.
Qed.

Lemma status_fetch_raises fuel agent_id query w p1 thread p2 p3 run p4 e p5 :
  agents_get_agent agent_id (platform w) = (inr (), p1) →
  threads_create p1 = (inr thread, p2) →
  messages_create (thread_id_of thread) USER query p2 = (inr (), p3) →
  runs_create (thread_id_of thread) agent_id p3 = (inr run, p4) →
  pending (status run) = true →
  runs_get (thread_id_of thread) (run_id_of run) p4 = (inl e, p5) →
  query_agent_body (S fuel) agent_id query w
  = Some (Raise e,
          {| platform := p5;
             trace := trace w
                      ++ [Remote (GetAgent agent_id) None;
                          Remote ThreadsCreate None;
                          Remote (MessagesCreate (thread_id_of thread) USER query) None;
                          Remote (RunsCreate (thread_id_of thread) agent_id) None;
                          Sleep 1;
                          Remote (RunsGet (thread_id_of thread) (run_id_of run))
                            (Some e)] |}).
Proof.
  intros H1 H2 H3 H4 Hp H5. unfold query_agent_body.
  erewrite bind_Raise; [done|].
  erewrite start_run_created by done.
  erewrite bind_Raise; [|by apply poll_raises].
  cbn [platform trace]. by rewrite <- !app_assoc.
Qed.

End Polling.

(** C1: with a scripted client whose runs report [queued] (the run that
    [runs.create] returns), then [in_progress], then [completed] (the two
    [runs.get] answers), [query_agent] sleeps exactly twice, for one second
    each, between exactly three readings of the status (one from
    [runs.create] and two from [runs.get]), and only then lists the
    messages for the extraction. *)
Theorem poll_queued_in_progress_completed
    (stub : Stub) thread r0 r1 r2 rest msgs agent_id query t0 fuel :
  on_get_agent stub = inr () →
  on_threads_create stub = inr thread →
  on_messages_create stub = inr () →
  on_runs_create stub = inr r0 →
  on_runs_get stub = inr r1 :: inr r2 :: rest →
  on_messages_list stub = inr msgs →
  status r0 = py "queued" →
  status r1 = py "in_progress" →
  status r2 = py "completed" →
  (2 ≤ fuel)%nat →
  ∃ d w t,
    query_agent fuel agent_id query {| platform := stub; trace := t0 |}
    = Some (Return d, w)
    ∧ trace w = t0 ++ t
    ∧ t = [Remote (GetAgent agent_id) None;
           Remote ThreadsCreate None;
           Remote (MessagesCreate (thread_id_of thread) USER query) None;
           Remote (RunsCreate (thread_id_of thread) agent_id) None;
           Sleep 1;
           Remote (RunsGet (thread_id_of thread) (run_id_of r0)) None;
           Sleep 1;
           Remote (RunsGet (thread_id_of thread) (run_id_of r1)) None;
           Remote (MessagesList (thread_id_of thread)) None]
    ∧ sleeps t = 2%nat
    ∧ status_fetches t = 3%nat
    ∧ runs_get_calls t = 2%nat
    ∧ on_runs_get (platform w) = rest
    ∧ call_count (platform w) = (call_count stub + 7)%nat.
Proof.
  intros Hagent Hthread Hpost Hcreate Hgets Hlist H0 H1 H2 Hfuel.
  destruct fuel as [|[|fuel]]; [lia|lia|].
  set (tid := thread_id_of thread).
  assert (∃ s, start_run (S (S fuel)) agent_id query {| platform := stub; trace := t0 |}
               = Some (Return (tid, run_id_of r0, r2),
                       {| platform := s;
                          trace := t0 ++ [Remote (GetAgent agent_id) None;
                                          Remote ThreadsCreate None;
                                          Remote (MessagesCreate tid USER query) None;
                                          Remote (RunsCreate tid agent_id) None;
                                          Sleep 1;
                                          Remote (RunsGet tid (run_id_of r0)) None;
                                          Sleep 1;
                                          Remote (RunsGet tid (run_id_of r1)) None] |})
               ∧ on_messages_list s = inr msgs
               ∧ on_runs_get s = rest
               ∧ call_count s = (call_count stub + 6)%nat)
    as (s & Hstart & Hs_list & Hs_gets & Hs_count).
  { destruct stub as [ga tc mc rc rg ml n]. cbn in Hagent, Hthread, Hpost, Hcreate, Hgets, Hlist.
    subst ga tc mc rc rg ml. eexists. split.
    - erewrite start_run_created by reflexivity.
      unfold bind.
      erewrite (poll_step _ _ r0 _ r1); [|by rewrite H0|reflexivity].
      erewrite (poll_step _ _ r1 _ r2); [|by rewrite H1|reflexivity].
      rewrite poll_done by (by rewrite H2).
      unfold ret. cbn [platform trace]. by rewrite <- !app_assoc.
    - cbn. repeat split. lia. }
  eexists _, _, _. split.
  - eapply query_agent_extracts; [exact Hstart| by rewrite H2 |].
    cbn. by rewrite Hs_list.
  - cbn [trace platform]. split; [by rewrite <- app_assoc|].
    split; [reflexivity|]. repeat split; [done|]. cbn. lia.
Qed.

(** * The statements at work on scripted runs *)

Lemma poll_queued_in_progress_completed_witness :
  ∃ d w t,
    query_agent 2 (py "agent_1") (py "weather")
      (fresh (three_step (a_run (py "completed") (py "None"))
                (inr [user_message; plain_answer])))
    = Some (Return d, w)
    ∧ trace w = [] ++ t
    ∧ t = [Remote (GetAgent (py "agent_1")) None;
           Remote ThreadsCreate None;
           Remote (MessagesCreate (py "thread_1") USER (py "weather")) None;
           Remote (RunsCreate (py "thread_1") (py "agent_1")) None;
           Sleep 1;
           Remote (RunsGet (py "thread_1") (py "run_1")) None;
           Sleep 1;
           Remote (RunsGet (py "thread_1") (py "run_1")) None;
           Remote (MessagesList (py "thread_1")) None]
    ∧ sleeps t = 2%nat
    ∧ status_fetches t = 3%nat
    ∧ runs_get_calls t = 2%nat
    ∧ on_runs_get (platform w) = []
    ∧ call_count (platform w) = 7%nat.
Proof.
  apply (poll_queued_in_progress_completed
           (three_step (a_run (py "completed") (py "None"))
              (inr [user_message; plain_answer]))
           {| thread_id_of := py "thread_1" |}
           (a_run (py "queued") (py "None"))
           (a_run (py "in_progress") (py "None"))
           (a_run (py "completed") (py "None"))
           [] [user_message; plain_answer] (py "agent_1") (py "weather") [] 2);
    solve [reflexivity | lia].
Defined.

Lemma failed_run_result_witness :
  ∃ w1,
    start_run 2 (py "agent_1") (py "weather")
      (fresh (three_step (a_run (py "failed") (py "rate_limit_exceeded")) (inr [])))
    = Some (Return (py "thread_1", py "run_1",
                    a_run (py "failed") (py "rate_limit_exceeded")), w1)
    ∧ ∃ d error tid rid,
        query_agent 2 (py "agent_1") (py "weather")
          (fresh (three_step (a_run (py "failed") (py "rate_limit_exceeded")) (inr [])))
        = Some (Return d, logged w1 (LogError error))
        ∧ d !! "success" = Some (VBool false)
        ∧ d !! "error" = Some (VStr error)
        ∧ error = py "Agent run failed: " ++ py "rate_limit_exceeded" ∧ error ≠ []
        ∧ d !! "thread_id" = Some (VStr tid) ∧ tid = py "thread_1" ∧ tid ≠ []
        ∧ d !! "run_id" = Some (VStr rid) ∧ rid = py "run_1" ∧ rid ≠ []
        ∧ d !! "citations" = None.
Proof.
  eexists. split; [vm_compute; reflexivity|].
  apply (failed_run_result 2 (py "agent_1") (py "weather")
           (fresh (three_step (a_run (py "failed") (py "rate_limit_exceeded")) (inr [])))
           (py "thread_1") (py "run_1")
           (a_run (py "failed") (py "rate_limit_exceeded")));
    [evaluated..].
Defined.

Lemma unconfigured_returns_error_witness :
  ∃ payload msg,
    bing_search (λ _, inl (Exception (py "no credentials")))
      0 (py "weather")
      {| AZURE_AI_FOUNDRY_PROJECT_ENDPOINT := None;
         AZURE_AI_FOUNDRY_AGENT_ID := Some (py "agent_1");
         AI_CLIENT := Some (three_step (a_run (py "completed") (py "None")) (inr []));
         events := [] |}
    = Some (Return payload,
            {| AZURE_AI_FOUNDRY_PROJECT_ENDPOINT := None;
               AZURE_AI_FOUNDRY_AGENT_ID := Some (py "agent_1");
               AI_CLIENT := Some (three_step (a_run (py "completed") (py "None")) (inr []));
               events := [] |})
    ∧ payload = error_payload msg
    ∧ payload !! "error" = Some (VStr msg)
    ∧ contains msg (py "not initialized") = true.
Proof.
  apply (unconfigured_returns_error
           (λ _, inl (Exception (py "no credentials")))
           0 (py "weather")
           {| AZURE_AI_FOUNDRY_PROJECT_ENDPOINT := None;
              AZURE_AI_FOUNDRY_AGENT_ID := Some (py "agent_1");
              AI_CLIENT := Some (three_step (a_run (py "completed") (py "None")) (inr []));
              events := [] |}).
  left. reflexivity.
Defined.

Lemma citations_deduplicated_witness :
  ∃ (w1 : Session Stub) (p : Stub),
    start_run 2 (py "agent_1") (py "weather")
      (fresh (three_step (a_run (py "completed") (py "None"))
                (inr [user_message; draft_message; cited_answer])))
    = Some (Return (py "thread_1", py "run_1", a_run (py "completed") (py "None")), w1)
    ∧ ∃ d citations result,
        query_agent 2 (py "agent_1") (py "weather")
          (fresh (three_step (a_run (py "completed") (py "None"))
                    (inr [user_message; draft_message; cited_answer])))
        = Some (Return d,
                {| platform := p;
                   trace := trace w1 ++ [Remote (MessagesList (py "thread_1")) None] |})
        ∧ d !! "citations" = Some (VList citations)
        ∧ d !! "result" = Some (VStr result)
        ∧ NoDup citations
        ∧ (∀ c, c ∈ citations ↔ c ∈ render <$> url_citation_annotations cited_answer)
        ∧ (∀ i j x y,
             citations !! i = Some x → citations !! j = Some y → (i < j)%nat →
             ∃ k, (render <$> url_citation_annotations cited_answer) !! k = Some x
                  ∧ y ∉ take k (render <$> url_citation_annotations cited_answer))
        ∧ (citations ≠ [] →
           ∃ text,
             result = text ++ join nl (py "## Sources"
                                         :: ((λ c, py "- " ++ c) <$> citations))).
Proof.
  eexists _, _. split; [vm_compute; reflexivity|].
  apply (citations_deduplicated 2 (py "agent_1") (py "weather")
           (fresh (three_step (a_run (py "completed") (py "None"))
                     (inr [user_message; draft_message; cited_answer])))
           (py "thread_1") (py "run_1") (a_run (py "completed") (py "None"))
           _ [user_message; draft_message; cited_answer] cited_answer);
    [evaluated..].
Defined.

Lemma last_agent_message_used_witness :
  ∃ (w1 : Session Stub) (p : Stub) d citations,
    query_agent 2 (py "agent_1") (py "weather")
      (fresh (three_step (a_run (py "completed") (py "None"))
                (inr ([user_message; draft_message] ++ cited_answer :: [user_message]))))
    = Some (Return d,
            {| platform := p;
               trace := trace w1 ++ [Remote (MessagesList (py "thread_1")) None] |})
    ∧ select_response ([user_message; draft_message] ++ cited_answer :: [user_message])
      = Some cited_answer
    ∧ citations = collect_citations [] (url_citation_annotations cited_answer)
    ∧ d !! "citations" = Some (VList citations)
    ∧ d !! "result"
      = Some (VStr (strip (append_sources
                             (append_texts [] (text_messages cited_answer)) citations)))
    ∧ d !! "success" = Some (VBool true).
Proof.
  eexists _, _.
  apply (last_agent_message_used 2 (py "agent_1") (py "weather")
           (fresh (three_step (a_run (py "completed") (py "None"))
                     (inr ([user_message; draft_message] ++ cited_answer :: [user_message]))))
           (py "thread_1") (py "run_1") (a_run (py "completed") (py "None"))
           _ [user_message; draft_message] cited_answer [user_message]);
    [evaluated | evaluated | evaluated | evaluated |].
  repeat constructor; discriminate.
Defined.

Lemma no_agent_message_result_witness :
  ∃ (w1 : Session Stub) (p : Stub) d,
    query_agent 2 (py "agent_1") (py "weather")
      (fresh (three_step (a_run (py "completed") (py "None")) (inr [user_message])))
    = Some (Return d,
            {| platform := p;
               trace := trace w1 ++ [Remote (MessagesList (py "thread_1")) None] |})
    ∧ d !! "success" = Some (VBool true)
    ∧ d !! "result" = Some (VStr [])
    ∧ d !! "citations" = Some (VList []).
Proof.
  eexists _, _.
  apply (no_agent_message_result 2 (py "agent_1") (py "weather")
           (fresh (three_step (a_run (py "completed") (py "None")) (inr [user_message])))
           (py "thread_1") (py "run_1") (a_run (py "completed") (py "None"))
           _ [user_message]);
    [evaluated | evaluated | evaluated |].
  repeat constructor; discriminate.
Defined.

Lemma text_segments_joined_witness :
  ∃ (w1 : Session Stub) (p : Stub) d result,
    query_agent 2 (py "agent_1") (py "weather")
      (fresh (three_step (a_run (py "completed") (py "None"))
                (inr [user_message; plain_answer])))
    = Some (Return d,
            {| platform := p;
               trace := trace w1 ++ [Remote (MessagesList (py "thread_1")) None] |})
    ∧ d !! "result" = Some (VStr result)
    ∧ d !! "citations" = Some (VList [])
    ∧ result = strip (join nl [py "A"; py "B"])
    ∧ ([py "A"; py "B"] = [py "A"; py "B"] →
       result = py "A" ++ nl ++ py "B"
       ∧ contains result (py "Sources") = false).
Proof.
  eexists _, _.
  apply (text_segments_joined 2 (py "agent_1") (py "weather")
           (fresh (three_step (a_run (py "completed") (py "None"))
                     (inr [user_message; plain_answer])))
           (py "thread_1") (py "run_1") (a_run (py "completed") (py "None"))
           _ [user_message; plain_answer] plain_answer [py "A"; py "B"]);
    [evaluated..].
Defined.

Lemma sources_section_round_trip_witness :
  ∃ (w1 : Session Stub) (p : Stub) d citations result,
    query_agent 2 (py "agent_1") (py "weather")
      (fresh (three_step (a_run (py "completed") (py "None"))
                (inr [user_message; cited_answer])))
    = Some (Return d,
            {| platform := p;
               trace := trace w1 ++ [Remote (MessagesList (py "thread_1")) None] |})
    ∧ d !! "citations" = Some (VList citations)
    ∧ d !! "result" = Some (VStr result)
    ∧ (citations ≠ [] →
       sources_section citations `suffix_of` result
       ∧ strip (append_sources [] citations) = sources_section citations).
Proof.
  eexists _, _.
  apply (sources_section_round_trip 2 (py "agent_1") (py "weather")
           (fresh (three_step (a_run (py "completed") (py "None"))
                     (inr [user_message; cited_answer])))
           (py "thread_1") (py "run_1") (a_run (py "completed") (py "None"))
           _ [user_message; cited_answer]);
    [evaluated..].
Defined.

Lemma agent_lookup_first_witness :
  ∃ t,
    query_agent 0 (py "no_such_agent") (py "weather")
      (fresh {| on_get_agent := inl (Exception (py "(404) Not Found"));
                on_threads_create := inr {| thread_id_of := py "thread_1" |};
                on_messages_create := inr ();
                on_runs_create := inr (a_run (py "queued") (py "None"));
                on_runs_get := [];
                on_messages_list := inr [];
                call_count := 0 |})
    = Some (Raise (Exception (py "(404) Not Found")),
            {| platform :=
                 {| on_get_agent := inl (Exception (py "(404) Not Found"));
                    on_threads_create := inr {| thread_id_of := py "thread_1" |};
                    on_messages_create := inr ();
                    on_runs_create := inr (a_run (py "queued") (py "None"));
                    on_runs_get := [];
                    on_messages_list := inr [];
                    call_count := 1 |};
               trace := [] ++ t |})
    ∧ t = [Remote (GetAgent (py "no_such_agent")) (Some (Exception (py "(404) Not Found")));
           LogError (py "Agent query failed - ID: " ++ py "no_such_agent"
                     ++ py ", Error: " ++ py "(404) Not Found")]
    ∧ Forall (λ ev, is_creation ev = false) t.
Proof.
  apply (agent_lookup_first 0 (py "no_such_agent") (py "weather")
           (fresh {| on_get_agent := inl (Exception (py "(404) Not Found"));
                     on_threads_create := inr {| thread_id_of := py "thread_1" |};
                     on_messages_create := inr ();
                     on_runs_create := inr (a_run (py "queued") (py "None"));
                     on_runs_get := [];
                     on_messages_list := inr [];
                     call_count := 0 |})).
  reflexivity.
Defined.

Lemma remote_exception_payload_witness :
  ∃ o w1 t,
    query_agent_body 2 (py "agent_1") (py "weather")
      (fresh (script (inr (a_run (py "queued") (py "None")))
                [inr (a_run (py "in_progress") (py "None"));
                 inl (Exception (py "(503) Service Unavailable"))]
                (inr [])))
    = Some (o, w1)
    ∧ trace w1 = [] ++ t
    ∧ Remote (RunsGet (py "thread_1") (py "run_1"))
        (Some (Exception (py "(503) Service Unavailable"))) ∈ t
    ∧ o = Raise (Exception (py "(503) Service Unavailable"))
    ∧ (∃ t0, t = t0 ++ [Remote (RunsGet (py "thread_1") (py "run_1"))
                          (Some (Exception (py "(503) Service Unavailable")))]
             ∧ quiet t0)
    ∧ (∃ payload g',
         bing_search (λ _, inl (Exception (py "unused"))) 2 (py "weather")
           {| AZURE_AI_FOUNDRY_PROJECT_ENDPOINT := Some (py "https://example.invalid");
              AZURE_AI_FOUNDRY_AGENT_ID := Some (py "agent_1");
              AI_CLIENT :=
                Some (script (inr (a_run (py "queued") (py "None")))
                        [inr (a_run (py "in_progress") (py "None"));
                         inl (Exception (py "(503) Service Unavailable"))]
                        (inr []));
              events := [] |}
         = Some (Return payload, g')
         ∧ payload = error_payload (py "Error performing Bing search: "
                                    ++ py "(503) Service Unavailable")
         ∧ payload !! "thread_id" = None
         ∧ payload !! "run_id" = None
         ∧ AI_CLIENT g' = Some (platform w1)
         ∧ events g'
           = trace w1
               ++ [LogError (py "Agent query failed - ID: " ++ py "agent_1"
                             ++ py ", Error: " ++ py "(503) Service Unavailable");
                   LogError (py "Error performing Bing search: "
                             ++ py "(503) Service Unavailable")]).
Proof.
  eexists _, _, _. split; [vm_compute; reflexivity|]. split; [vm_compute; reflexivity|].
  assert (Remote (RunsGet (py "thread_1") (py "run_1"))
            (Some (Exception (py "(503) Service Unavailable")))
          ∈ [Remote (GetAgent (py "agent_1")) None;
             Remote ThreadsCreate None;
             Remote (MessagesCreate (py "thread_1") USER (py "weather")) None;
             Remote (RunsCreate (py "thread_1") (py "agent_1")) None;
             Sleep 1;
             Remote (RunsGet (py "thread_1") (py "run_1")) None;
             Sleep 1;
             Remote (RunsGet (py "thread_1") (py "run_1"))
               (Some (Exception (py "(503) Service Unavailable")))]) as Hin.
  { do 7 apply list_elem_of_further. apply list_elem_of_here. }
  split; [exact Hin|].
  destruct (remote_exception_payload (λ _, inl (Exception (py "unused")))
              2 (py "weather")
              {| AZURE_AI_FOUNDRY_PROJECT_ENDPOINT := Some (py "https://example.invalid");
                 AZURE_AI_FOUNDRY_AGENT_ID := Some (py "agent_1");
                 AI_CLIENT :=
                   Some (script (inr (a_run (py "queued") (py "None")))
                           [inr (a_run (py "in_progress") (py "None"));
                            inl (Exception (py "(503) Service Unavailable"))]
                           (inr []));
                 events := [] |}
              _ (py "agent_1") _ _ _
              (RunsGet (py "thread_1") (py "run_1"))
              (Exception (py "(503) Service Unavailable"))
              eq_refl eq_refl ltac:(discriminate) eq_refl eq_refl eq_refl Hin)
    as (Ho & Hlast & Hpayload & _).
  split; [exact Ho|]. split; [exact Hlast|]. exact Hpayload.
Defined.

(** * More on the polling loop and the calls of one invocation *)

Section Invocation.
Context {σ : Type} `{client : AgentClient σ}.
Implicit Types (w : Session σ) (run : ThreadRun).

(** The loop (lines 83-85) returns only a run whose status is none of
    [queued], [in_progress], [requires_action]. *)
Theorem poll_returns_terminal fuel thread_id run w run' w' :
  poll fuel thread_id run w = Some (Return run', w') →
  pending (status run') = false.
Proof.
  revert run w. induction fuel as [|fuel IH]; intros run w; simpl;
    destruct (pending (status run)) eqn:Hp; try done.
  - by intros [= <- <-].
  - unfold bind, emit, remote.
    destruct (runs_get thread_id (run_id_of run) (platform (logged w (Sleep 1))))
      as [[e|r] p]; [done|]. apply IH.
  - by intros [= <- <-].
Qed.

Lemma poll_trace_events fuel thread_id run w o w' :
  poll fuel thread_id run w = Some (o, w') →
  ∃ t, trace w' = trace w ++ t
       ∧ forallb (is_poll_event thread_id) t = true
       ∧ sleeps t = runs_get_calls t.
Proof.
  revert run w. induction fuel as [|fuel IH]; intros run w; simpl;
    destruct (pending (status run)) eqn:Hp; try done.
  - intros [= <- <-]. exists []. by rewrite app_nil_r.
  - unfold bind, emit, remote, logged. cbn [platform trace].
    destruct (runs_get thread_id (run_id_of run) (platform w)) as [[e|run'] p].
    + intros [= <- <-].
      exists [Sleep 1; Remote (RunsGet thread_id (run_id_of run)) (Some e)].
      split; [by rewrite <- app_assoc|]. split; [|done].
      cbn. by rewrite bool_decide_true.
    + intros (t & Ht & Hev & Hbal)%IH. cbn [trace] in Ht.
      exists (Sleep 1 :: Remote (RunsGet thread_id (run_id_of run)) None :: t).
      split; [by rewrite Ht, <- !app_assoc|]. split.
      * cbn. by rewrite bool_decide_true, Hev.
      * unfold sleeps, runs_get_calls in *. cbn. by rewrite Hbal.
  - intros [= <- <-]. exists []. by rewrite app_nil_r.
Qed.

(** Whatever the loop does, it leaves in the trace only sleeps of one
    second and [runs.get] calls on its thread, as many of the one as of the
    other. *)
Theorem poll_sleeps_and_fetches fuel thread_id run w o w' :
  poll fuel thread_id run w = Some (o, w') →
  ∃ t, trace w' = trace w ++ t
       ∧ forallb (is_poll_event thread_id) t = true
       ∧ sleeps t = runs_get_calls t.
Proof. apply poll_trace_events. Qed.

(** A run that is already terminal when [runs.create] returns it is not
    polled: no sleep and no [runs.get], whatever the fuel. *)
Theorem terminal_at_creation_not_polled
    fuel agent_id query w p1 thread p2 p3 run p4 :
  agents_get_agent agent_id (platform w) = (inr (), p1) →
  threads_create p1 = (inr thread, p2) →
  messages_create (thread_id_of thread) USER query p2 = (inr (), p3) →
  runs_create (thread_id_of thread) agent_id p3 = (inr run, p4) →
  pending (status run) = false →
  ∃ t,
    start_run fuel agent_id query w
    = Some (Return (thread_id_of thread, run_id_of run, run),
            {| platform := p4; trace := trace w ++ t |})
    ∧ sleeps t = 0%nat ∧ runs_get_calls t = 0%nat
    ∧ List.length t = 4%nat.
Proof.
  intros H1 H2 H3 H4 Hp. eexists. split.
  - erewrite start_run_created by done.
    erewrite bind_Return by by apply poll_done. reflexivity.
  - done.
Qed.

(** The identifiers of the result are those of the created thread and of
    the run as [runs.create] returned it, also when the runs that
    [runs.get] answers carry another identifier. *)
Theorem identifiers_from_creation
    fuel agent_id query w p1 thread p2 p3 run p4 thread_id run_id run' w' :
  agents_get_agent agent_id (platform w) = (inr (), p1) →
  threads_create p1 = (inr thread, p2) →
  messages_create (thread_id_of thread) USER query p2 = (inr (), p3) →
  runs_create (thread_id_of thread) agent_id p3 = (inr run, p4) →
  start_run fuel agent_id query w = Some (Return (thread_id, run_id, run'), w') →
  thread_id = thread_id_of thread ∧ run_id = run_id_of run.
Proof.
  intros H1 H2 H3 H4. erewrite start_run_created by done.
  unfold bind. destruct (poll _ _ _ _) as [[[r|e] w1]|]; [|done..].
  by intros [= <- <- _ _].
Qed.

(** A platform that keeps answering a pending status is polled without
    end: no bound on the fuel makes [query_agent] return or raise. *)
Theorem pending_forever_never_returns
    agent_id query w p1 thread p2 p3 run p4 :
  agents_get_agent agent_id (platform w) = (inr (), p1) →
  threads_create p1 = (inr thread, p2) →
  messages_create (thread_id_of thread) USER query p2 = (inr (), p3) →
  runs_create (thread_id_of thread) agent_id p3 = (inr run, p4) →
  pending (status run) = true →
  (∀ thread_id run_id p,
     ∃ run' p', runs_get thread_id run_id p = (inr run', p')
                ∧ pending (status run') = true) →
  ∀ fuel, query_agent fuel agent_id query w = None.
Proof.
  intros H1 H2 H3 H4 Hp Hstuck fuel.
  assert (∀ fuel run w, pending (status run) = true →
            poll fuel (thread_id_of thread) run w = None) as Hpoll.
  { clear -Hstuck. induction fuel as [|fuel IH]; intros run w Hp; simpl;
      rewrite Hp; [done|].
    unfold bind, emit, remote.
    destruct (Hstuck (thread_id_of thread) (run_id_of run)
                (platform (logged w (Sleep 1)))) as (run' & p' & -> & Hp').
    by apply IH. }
  unfold query_agent, try_except, query_agent_body.
  unfold bind at 1. erewrite start_run_created by done.
  unfold bind. by rewrite Hpoll.
Qed.

End Invocation.

Section Call_counts.
Context {σ : Type} `{client : AgentClient σ}.
Implicit Types (w : Session σ) (run : ThreadRun) (t : list event).

Lemma calls_where_app kind t1 t2 :
  calls_where kind (t1 ++ t2) = (calls_where kind t1 + calls_where kind t2)%nat.
Proof. unfold calls_where. by rewrite List.filter_app, length_app. Qed.

Lemma calls_where_poll kind thread_id t :
  (∀ thread_id' run_id, kind (RunsGet thread_id' run_id) = false) →
  forallb (is_poll_event thread_id) t = true →
  calls_where kind t = 0%nat.
Proof.
  intros Hkind. induction t as [|ev t IH]; [done|].
  cbn [forallb]. intros [Hev Ht]%andb_prop.
  change (ev :: t) with ([ev] ++ t). rewrite calls_where_app, IH by done.
  destruct ev as [[] r| |]; try done. unfold calls_where. cbn. by rewrite Hkind.
Qed.

(** Closes a case of the invocation, given its trace. *)
Local Ltac finish_with tt :=
  match goal with
  | Hhandler : ∀ t, trace _ = _ → _, Hclose : ∀ t, _ → _ |- _ =>
      let tl := fresh "tl" in
      let Htr := fresh "Htr" in
      let Htl := fresh "Htl" in
      let Hz := fresh "Hz" in
      destruct (Hhandler tt) as (tl & Htr & Htl);
      [ cbn [trace]; rewrite ?app_nil_r;
        repeat match goal with H : trace _ = _ |- _ => rewrite H end;
        by rewrite <- ?app_assoc
      | apply (Hclose tt) with (t' := tl);
        [ by eexists _, _ | .. | exact Htl | exact Htr ];
        rewrite ?calls_where_app;
        repeat match goal with
               | H : forallb (is_poll_event _) _ = true |- _ =>
                   rewrite ?(calls_where_poll is_get_agent _ _ (λ _ _, eq_refl) H),
                     ?(calls_where_poll is_threads_create _ _ (λ _ _, eq_refl) H),
                     ?(calls_where_poll is_messages_create _ _ (λ _ _, eq_refl) H),
                     ?(calls_where_poll is_runs_create _ _ (λ _ _, eq_refl) H),
                     ?(calls_where_poll is_messages_list _ _ (λ _ _, eq_refl) H);
                   clear H
               end;
        repeat match goal with x := _ : event |- _ => subst x end;
        cbn; lia ]
  end.

(** One invocation of [query_agent], however it ends, starts with the
    agent lookup, looks the agent up once, and creates at most one thread,
    posts at most one message, starts at most one run and lists the
    messages at most once. *)
Theorem one_call_of_each_kind fuel agent_id query w o w' :
  query_agent fuel agent_id query w = Some (o, w') →
  ∃ t,
    trace w' = trace w ++ t
    ∧ (∃ raised t', t = Remote (GetAgent agent_id) raised :: t')
    ∧ calls_where is_get_agent t = 1%nat
    ∧ (calls_where is_threads_create t ≤ 1)%nat
    ∧ (calls_where is_messages_create t ≤ 1)%nat
    ∧ (calls_where is_runs_create t ≤ 1)%nat
    ∧ (calls_where is_messages_list t ≤ 1)%nat.
Proof.
  assert (∀ t,
            (∃ raised t', t = Remote (GetAgent agent_id) raised :: t') →
            calls_where is_get_agent t = 1%nat →
            (calls_where is_threads_create t ≤ 1)%nat →
            (calls_where is_messages_create t ≤ 1)%nat →
            (calls_where is_runs_create t ≤ 1)%nat →
            (calls_where is_messages_list t ≤ 1)%nat →
            ∀ t', (t' = [] ∨ ∃ msg, t' = [LogError msg]) →
            trace w' = trace w ++ t ++ t' →
            ∃ t0,
              trace w' = trace w ++ t0
              ∧ (∃ raised t', t0 = Remote (GetAgent agent_id) raised :: t')
              ∧ calls_where is_get_agent t0 = 1%nat
              ∧ (calls_where is_threads_create t0 ≤ 1)%nat
              ∧ (calls_where is_messages_create t0 ≤ 1)%nat
              ∧ (calls_where is_runs_create t0 ≤ 1)%nat
              ∧ (calls_where is_messages_list t0 ≤ 1)%nat) as Hclose.
  { intros t (raised & t1 & ->) ? ? ? ? ? t' Ht' Htr. exists ((Remote (GetAgent agent_id) raised :: t1) ++ t').
    assert (∀ kind, calls_where kind t' = 0%nat) as Hz
      by (intros kind; by destruct Ht' as [->|[msg ->]]).
    split; [done|]. split; [by eexists _, _|].
    rewrite !calls_where_app, !Hz. repeat split; lia. }
  intros Hq.
  destruct (query_agent_body fuel agent_id query w) as [[o' w1]|] eqn:Hbody;
    [|unfold query_agent, try_except in Hq; by rewrite Hbody in Hq].
  assert (∀ t, trace w1 = trace w ++ t →
            ∃ t', trace w' = trace w ++ t ++ t'
                  ∧ (t' = [] ∨ ∃ msg, t' = [LogError msg])) as Hhandler.
  { intros t Ht. unfold query_agent, try_except in Hq. rewrite Hbody in Hq.
    destruct o' as [d|e].
    - injection Hq as <- <-. exists []. rewrite app_nil_r. eauto.
    - unfold bind, emit, raise, logged in Hq. injection Hq as <- <-. cbn [trace].
      eexists. split; [by rewrite Ht, <- app_assoc|]. eauto. }
  pose proof Hbody as Hb.
  set (e1 := Remote (GetAgent agent_id) None).
  set (e2 := Remote ThreadsCreate None).
  unfold query_agent_body, start_run, bind, remote in Hb. cbn [platform trace] in Hb.
  destruct (agents_get_agent agent_id (platform w)) as [[e|[]] p1].
  { cbv beta iota zeta in Hb. injection Hb as <- <-.
    finish_with [Remote (GetAgent agent_id) (Some e)]. }
  cbv beta iota zeta in Hb. cbn [platform trace] in Hb.
  destruct (threads_create p1) as [[e|thread] p2].
  { cbv beta iota zeta in Hb. injection Hb as <- <-.
    finish_with [e1; Remote ThreadsCreate (Some e)]. }
  cbv beta iota zeta in Hb. cbn [platform trace] in Hb.
  set (e3 := Remote (MessagesCreate (thread_id_of thread) USER query) None).
  set (e4 := Remote (RunsCreate (thread_id_of thread) agent_id) None).
  destruct (messages_create (thread_id_of thread) USER query p2) as [[e|[]] p3].
  { cbv beta iota zeta in Hb. injection Hb as <- <-.
    finish_with [e1; e2; Remote (MessagesCreate (thread_id_of thread) USER query) (Some e)]. }
  cbv beta iota zeta in Hb. cbn [platform trace] in Hb.
  destruct (runs_create (thread_id_of thread) agent_id p3) as [[e|run] p4].
  { cbv beta iota zeta in Hb. injection Hb as <- <-.
    finish_with [e1; e2; e3; Remote (RunsCreate (thread_id_of thread) agent_id) (Some e)]. }
  cbv beta iota zeta in Hb. cbn [platform trace] in Hb.
  destruct (poll fuel (thread_id_of thread) run _) as [[[run'|e] w5]|] eqn:Hpoll;
    [| |done];
    destruct (poll_trace_events _ _ _ _ _ _ Hpoll) as (tp & Htp & Hev & _);
    cbn [trace] in Htp; cbv beta iota zeta in Hb.
  - unfold ret, finish_run in Hb.
    destruct (decide (status run' = py "failed")).
    + unfold bind, emit, ret, logged in Hb. injection Hb as <- <-.
      finish_with ([e1; e2; e3; e4] ++ tp
                   ++ [LogError (py "Agent run failed: " ++ last_error run')]).
    + unfold bind, remote in Hb. cbn [platform trace] in Hb.
      destruct (messages_list (thread_id_of thread) (platform w5)) as [[e|msgs] p6].
      * injection Hb as <- <-.
        finish_with ([e1; e2; e3; e4] ++ tp
                     ++ [Remote (MessagesList (thread_id_of thread)) (Some e)]).
      * cbv beta iota zeta in Hb.
        destruct (extract (select_response msgs)) as [result citations].
        unfold ret in Hb. injection Hb as <- <-.
        finish_with ([e1; e2; e3; e4] ++ tp
                     ++ [Remote (MessagesList (thread_id_of thread)) None]).
  - injection Hb as <- <-.
    finish_with ([e1; e2; e3; e4] ++ tp).
Qed.

End Call_counts.

(** * More on the extraction *)

Section Extraction_more.
Context {σ : Type} `{client : AgentClient σ}.
Implicit Types (w : Session σ) (run : ThreadRun) (d : Dict) (s : str).
Implicit Types (m msg : ThreadMessage) (msgs : list ThreadMessage).
Implicit Types (annotations : list UrlCitation).

(** The selected message is the last of the agent-role messages of the
    listing, and there is none exactly when the listing has no agent-role
    message. *)
Theorem select_response_is_last_agent msgs :
  select_response msgs = last (filter (λ msg, role msg = AGENT) msgs).
Proof.
  induction msgs as [|msg msgs IH] using rev_ind; [done|].
  rewrite select_response_snoc, filter_app, IH.
  rewrite (filter_cons _ msg), filter_nil.
  case_decide.
  - by rewrite last_snoc.
  - by rewrite app_nil_r.
Qed.

(** Annotations that all render differently are all kept, in their order. *)
Theorem distinct_annotations_all_kept annotations :
  NoDup (render <$> annotations) →
  collect_citations [] annotations = render <$> annotations.
Proof.
  induction annotations as [|a annotations IH] using rev_ind; [done|].
  rewrite fmap_app. intros [Hnd [Hnew _]]%NoDup_app.
  rewrite collect_citations_snoc. cbv zeta. rewrite IH by done.
  rewrite decide_False; [done|].
  intros Hin. apply (Hnew _ Hin). cbn. apply list_elem_of_here.
Qed.

(** Annotations whose rendering has been seen add nothing, and the list
    never has more citations than there are annotations. *)
Theorem seen_annotations_add_nothing annotations more :
  (∀ a, a ∈ more → render a ∈ render <$> annotations) →
  collect_citations [] (annotations ++ more) = collect_citations [] annotations
  ∧ (List.length (collect_citations [] annotations) ≤ List.length annotations)%nat.
Proof.
  intros Hseen. split.
  - induction more as [|a more IH] using rev_ind; [by rewrite app_nil_r|].
    rewrite app_assoc, collect_citations_snoc. cbv zeta.
    rewrite IH by (intros a' Ha'; apply Hseen; set_solver).
    rewrite decide_True; [done|].
    apply (collect_citations_spec annotations). apply Hseen. set_solver.
  - clear. induction annotations as [|a annotations IH] using rev_ind; [done|].
    rewrite collect_citations_snoc. cbv zeta.
    case_decide; rewrite !length_app; cbn; lia.
Qed.

Lemma lstrip_head s c : head (lstrip s) = Some c → isspace c = false.
Proof.
  destruct (lstrip_split s) as (ws & _ & _ & [->|(c' & r & -> & Hc')]); [done|].
  by intros [= <-].
Qed.

Lemma lstrip_last s : lstrip s ≠ [] → last (lstrip s) = last s.
Proof.
  intros Hne. destruct (lstrip_split s) as (ws & _ & Hs & _).
  rewrite Hs at 2. rewrite last_app.
  destruct (lstrip s) as [|c r] eqn:Hl using rev_ind; [done|].
  by rewrite last_snoc.
Qed.

Lemma rstrip_last s c : last (rstrip s) = Some c → isspace c = false.
Proof.
  unfold rstrip. rewrite last_reverse. apply lstrip_head.
Qed.

(** What [strip] returns neither starts nor ends with white space. *)
Lemma strip_ends s :
  (∀ c, head (strip s) = Some c → isspace c = false)
  ∧ (∀ c, last (strip s) = Some c → isspace c = false).
Proof.
  unfold strip. split; [apply lstrip_head|].
  intros c Hc. destruct (decide (lstrip (rstrip s) = [])) as [Hnil|Hne].
  - by rewrite Hnil in Hc.
  - rewrite lstrip_last in Hc by done. by eapply rstrip_last.
Qed.

Lemma strip_fixed s :
  (∀ c, head s = Some c → isspace c = false) →
  (∀ c, last s = Some c → isspace c = false) →
  strip s = s.
Proof.
  intros Hhead Hlast. unfold strip.
  assert (rstrip s = s) as ->.
  { destruct s as [|c s _] using rev_ind; [done|].
    apply rstrip_nonspace, Hlast. by rewrite last_snoc. }
  destruct s as [|c s]; [done|]. apply lstrip_nonspace. by apply Hhead.
Qed.

(** Line 125: the [result] of a run that did not fail neither starts nor
    ends with white space, and stripping it again changes nothing. *)
Theorem result_is_stripped fuel agent_id query w thread_id run_id run w1 msgs p :
  start_run fuel agent_id query w = Some (Return (thread_id, run_id, run), w1) →
  status run ≠ py "failed" →
  messages_list thread_id (platform w1) = (inr msgs, p) →
  ∃ d result,
    query_agent fuel agent_id query w
    = Some (Return d,
            {| platform := p;
               trace := trace w1 ++ [Remote (MessagesList thread_id) None] |})
    ∧ d !! "result" = Some (VStr result)
    ∧ (∀ c, head result = Some c → isspace c = false)
    ∧ (∀ c, last result = Some c → isspace c = false)
    ∧ strip result = result.
Proof.
  intros Hs Hst Hl. eexists _, _. split; [by eapply query_agent_extracts|].
  split; [reflexivity|].
  destruct (strip_ends (extract (select_response msgs)).1) as [Hhead Hlast].
  split; [done|]. split; [done|]. by apply strip_fixed.
Qed.

(** Lines 107-125: with at least one citation annotation, [result] is the
    text segments, each followed by a line break, without the leading
    white space, then two more line breaks, then the header and the bullet
    lines; when the segments hold nothing but white space (or there is no
    segment), [result] is the header and the bullet lines alone. *)
Theorem result_with_citations
    fuel agent_id query w thread_id run_id run w1 msgs m p :
  start_run fuel agent_id query w = Some (Return (thread_id, run_id, run), w1) →
  status run ≠ py "failed" →
  messages_list thread_id (platform w1) = (inr msgs, p) →
  select_response msgs = Some m →
  url_citation_annotations m ≠ [] →
  ∃ d citations,
    query_agent fuel agent_id query w
    = Some (Return d,
            {| platform := p;
               trace := trace w1 ++ [Remote (MessagesList thread_id) None] |})
    ∧ d !! "citations" = Some (VList citations)
    ∧ citations ≠ []
    ∧ let text := List.concat ((λ s, s ++ nl) <$> text_messages m) in
      let section :=
        join nl (py "## Sources" :: ((λ c, py "- " ++ c) <$> citations)) in
      d !! "result"
      = Some (VStr (match lstrip text with
                    | [] => section
                    | _ :: _ => lstrip text ++ nl ++ nl ++ section
                    end)).
Proof.
  intros Hs Hst Hl Hsel Hanns.
  eexists _, _. split; [by eapply query_agent_extracts|].
  rewrite Hsel. unfold extract. cbn [fst snd].
  split; [reflexivity|].
  assert (collect_citations [] (url_citation_annotations m) ≠ []) as Hne.
  { destruct (url_citation_annotations m) as [|a annotations] eqn:Ha; [done|].
    intros Hnil.
    assert (render a ∈ collect_citations [] (a :: annotations)) as Hin
      by (apply (collect_citations_spec (a :: annotations)); set_solver).
    rewrite Hnil in Hin. by apply not_elem_of_nil in Hin. }
  split; [done|]. cbv zeta.
  change (success_result ?t ?r ?x ?c !! "result") with (Some (VStr (strip x))).
  rewrite strip_sources, append_texts_concat, app_nil_l;
    [|done|apply collect_citations_rendered].
  destruct (lstrip _); [done|]. by rewrite <- !app_assoc.
Qed.

End Extraction_more.

(** * More on the tool *)

Section Tool.
Context {σ : Type} `{client : AgentClient σ}.
Variable AIProjectClient : str → exn + σ.
Implicit Types (w : Session σ) (g : Globals σ) (d : Dict).

Lemma initialize_agent_client_cases g :
  ∃ ok g',
    initialize_agent_client AIProjectClient g = Some (Return ok, g')
    ∧ AZURE_AI_FOUNDRY_PROJECT_ENDPOINT g' = AZURE_AI_FOUNDRY_PROJECT_ENDPOINT g
    ∧ AZURE_AI_FOUNDRY_AGENT_ID g' = AZURE_AI_FOUNDRY_AGENT_ID g
    ∧ (ok = true →
       truthy (AZURE_AI_FOUNDRY_PROJECT_ENDPOINT g) = true
       ∧ truthy (AZURE_AI_FOUNDRY_AGENT_ID g) = true
       ∧ ∃ endpoint c,
           AZURE_AI_FOUNDRY_PROJECT_ENDPOINT g = Some endpoint
           ∧ AIProjectClient endpoint = inr c
           ∧ g' = installed g c)
    ∧ (ok = false →
       AI_CLIENT g' = AI_CLIENT g
       ∧ (events g' = events g
          ∨ ∃ endpoint e,
              AZURE_AI_FOUNDRY_PROJECT_ENDPOINT g = Some endpoint
              ∧ AIProjectClient endpoint = inl e
              ∧ events g'
                = events g
                    ++ [LogError (py "Failed to initialize AIProjectClient: "
                                  ++ exn_str e)])).
Proof.
  unfold initialize_agent_client, bind, get_globals.
  destruct (truthy (AZURE_AI_FOUNDRY_PROJECT_ENDPOINT g)) eqn:He; cbn [andb negb].
  2:{ eexists _, _. split; [reflexivity|]. repeat split; try done. by left. }
  destruct (truthy (AZURE_AI_FOUNDRY_AGENT_ID g)) eqn:Ha; cbn [negb].
  2:{ eexists _, _. split; [reflexivity|]. repeat split; try done. by left. }
  destruct (AZURE_AI_FOUNDRY_PROJECT_ENDPOINT g) as [endpoint|] eqn:Hendpoint;
    [|done]. cbn [default from_option id].
  destruct (AIProjectClient endpoint) as [e|c] eqn:Hnew.
  - eexists _, _. split; [reflexivity|]. cbn. rewrite Hendpoint.
    repeat split; try done. right. eauto.
  - eexists _, _. split; [reflexivity|]. cbn. rewrite Hendpoint.
    repeat split; try done. eexists _, _. repeat split; try done.
    unfold installed. by rewrite Hendpoint.
Qed.


Lemma initialize_agent_client_configured g endpoint :
  AZURE_AI_FOUNDRY_PROJECT_ENDPOINT g = Some endpoint → endpoint ≠ [] →
  truthy (AZURE_AI_FOUNDRY_AGENT_ID g) = true →
  initialize_agent_client AIProjectClient g
  = match AIProjectClient endpoint with
    | inr c => Some (Return true, installed g c)
    | inl e =>
        Some (Return false,
              recorded g (LogError (py "Failed to initialize AIProjectClient: "
                                    ++ exn_str e)))
    end.
Proof.
  intros He Hne Ha. unfold initialize_agent_client, bind, get_globals.
  rewrite He, Ha. destruct endpoint as [|x endpoint]; [done|].
  cbn [truthy andb negb default from_option id].
  by destruct (AIProjectClient (x :: endpoint)).
Qed.

Lemma bing_search_configured fuel query g endpoint :
  AZURE_AI_FOUNDRY_PROJECT_ENDPOINT g = Some endpoint → endpoint ≠ [] →
  truthy (AZURE_AI_FOUNDRY_AGENT_ID g) = true →
  AI_CLIENT g = None →
  bing_search AIProjectClient fuel query g
  = match AIProjectClient endpoint with
    | inr c => bing_search AIProjectClient fuel query (installed g c)
    | inl e =>
        Some (Return (error_payload (py "Failed to initialize Bing Search client.")),
              recorded g (LogError (py "Failed to initialize AIProjectClient: "
                                    ++ exn_str e)))
    end.
Proof.
  intros He Hne Ha Hc. unfold bing_search.
  unfold bind at 1 3. unfold get_globals at 1 3.
  cbn [installed AZURE_AI_FOUNDRY_PROJECT_ENDPOINT AZURE_AI_FOUNDRY_AGENT_ID AI_CLIENT].
  assert (negb (truthy (AZURE_AI_FOUNDRY_PROJECT_ENDPOINT g)
                && truthy (AZURE_AI_FOUNDRY_AGENT_ID g)) = false) as ->
    by (rewrite He, Ha; by destruct endpoint).
  rewrite Hc. unfold bind at 1.
  rewrite (initialize_agent_client_configured g endpoint He Hne Ha).
  destruct (AIProjectClient endpoint) as [e|c].
  - unfold bind, get_globals. cbn [recorded AI_CLIENT]. by rewrite Hc.
  - unfold bind, get_globals, ret.
    cbn [installed AZURE_AI_FOUNDRY_PROJECT_ENDPOINT AZURE_AI_FOUNDRY_AGENT_ID AI_CLIENT].
    rewrite He, Ha. by destruct endpoint.
Qed.

(** Lines 157-160: with both identifiers set and no client yet, a
    construction that raises makes the tool return the initialization
    payload; the failure is logged, no remote call is made, and [AI_CLIENT]
    stays [None], so that the next invocation builds a client again. *)
Theorem construction_failure_payload fuel query g endpoint e :
  AZURE_AI_FOUNDRY_PROJECT_ENDPOINT g = Some endpoint → endpoint ≠ [] →
  truthy (AZURE_AI_FOUNDRY_AGENT_ID g) = true →
  AI_CLIENT g = None →
  AIProjectClient endpoint = inl e →
  bing_search AIProjectClient fuel query g
  = Some (Return (error_payload (py "Failed to initialize Bing Search client.")),
          recorded g (LogError (py "Failed to initialize AIProjectClient: "
                                ++ exn_str e)))
  ∧ AI_CLIENT (recorded g (LogError (py "Failed to initialize AIProjectClient: "
                                     ++ exn_str e))) = None.
Proof.
  intros He Hne Ha Hc Hnew. split; [|done].
  rewrite (bing_search_configured _ _ _ _ He Hne Ha Hc). by rewrite Hnew.
Qed.

(** Lines 157-163: with both identifiers set and no client yet, a
    construction that succeeds stores the client, built for the configured
    endpoint, and the invocation goes on as one that found it in place. *)
Theorem first_use_builds_client fuel query g endpoint c :
  AZURE_AI_FOUNDRY_PROJECT_ENDPOINT g = Some endpoint → endpoint ≠ [] →
  truthy (AZURE_AI_FOUNDRY_AGENT_ID g) = true →
  AI_CLIENT g = None →
  AIProjectClient endpoint = inr c →
  bing_search AIProjectClient fuel query g
  = bing_search AIProjectClient fuel query (installed g c).
Proof.
  intros He Hne Ha Hc Hnew.
  rewrite (bing_search_configured _ _ _ _ He Hne Ha Hc). by rewrite Hnew.
Qed.

End Tool.

Section Tool_invariants.
Context {σ : Type} `{client : AgentClient σ}.
Implicit Types (w : Session σ) (g : Globals σ) (d : Dict).

(** Line 157: once a client is stored, no other is ever built: the
    invocation does not depend on what a construction would give. *)
Theorem client_built_at_most_once
    (AIProjectClient AIProjectClient' : str → exn + σ) fuel query g c :
  AI_CLIENT g = Some c →
  bing_search AIProjectClient fuel query g
  = bing_search AIProjectClient' fuel query g.
Proof.
  intros Hc. unfold bing_search, bind, get_globals. rewrite Hc.
  by destruct (negb _).
Qed.

Lemma query_agent_shape fuel agent_id query w d w' :
  query_agent fuel agent_id query w = Some (Return d, w') →
  (∃ error_msg thread_id run_id, d = failure_result error_msg thread_id run_id)
  ∨ (∃ thread_id run_id result citations,
       d = success_result thread_id run_id result citations).
Proof.
  unfold query_agent, try_except, query_agent_body, bind.
  destruct (start_run fuel agent_id query w) as [[[[[thread_id run_id] run]|e] w1]|];
    [| |done].
  - unfold finish_run. case_decide.
    + unfold bind, emit, ret. intros [= <- _]. left. eauto.
    + unfold bind, remote.
      destruct (messages_list thread_id (platform w1)) as [[e|msgs] p].
      * unfold emit, raise. done.
      * destruct (extract (select_response msgs)) as [result citations].
        unfold ret. intros [= <- _]. right. eauto.
  - unfold emit, raise. done.
Qed.

(** The ways an invocation of the tool ends. *)
Lemma bing_search_cases
    (AIProjectClient : str → exn + σ) fuel query g o g' :
  bing_search AIProjectClient fuel query g = Some (o, g') →
  AZURE_AI_FOUNDRY_PROJECT_ENDPOINT g' = AZURE_AI_FOUNDRY_PROJECT_ENDPOINT g
  ∧ AZURE_AI_FOUNDRY_AGENT_ID g' = AZURE_AI_FOUNDRY_AGENT_ID g
  ∧ (is_Some (AI_CLIENT g) → is_Some (AI_CLIENT g'))
  ∧ ((truthy (AZURE_AI_FOUNDRY_PROJECT_ENDPOINT g)
      && truthy (AZURE_AI_FOUNDRY_AGENT_ID g) = false
      ∧ o = Return (error_payload not_initialized_msg))
     ∨ (truthy (AZURE_AI_FOUNDRY_PROJECT_ENDPOINT g)
        && truthy (AZURE_AI_FOUNDRY_AGENT_ID g) = true
        ∧ (o = Return (error_payload (py "Failed to initialize Bing Search client."))
           ∨ (∃ e, o = Return (error_payload
                                 (py "Error performing Bing search: " ++ exn_str e)))
           ∨ (∃ error_msg thread_id run_id,
                o = Return (failure_result error_msg thread_id run_id))
           ∨ (∃ thread_id run_id result citations,
                o = Return (success_result thread_id run_id result citations))))).
Proof.
  unfold bing_search. unfold bind at 1. unfold get_globals at 1.
  destruct (truthy (AZURE_AI_FOUNDRY_PROJECT_ENDPOINT g)
            && truthy (AZURE_AI_FOUNDRY_AGENT_ID g)) eqn:Hconf; cbn [negb].
  2:{ intros [= <- <-]. repeat split; try done. by left. }
  unfold bind at 1.
  destruct (initialize_agent_client_cases AIProjectClient g)
    as (ok & g1 & Hinit & He & Ha & Htrue & Hfalse).
  assert (∃ b g2,
            match AI_CLIENT g with
            | Some _ => ret true
            | None => initialize_agent_client AIProjectClient
            end g = Some (Return b, g2)
            ∧ AZURE_AI_FOUNDRY_PROJECT_ENDPOINT g2 = AZURE_AI_FOUNDRY_PROJECT_ENDPOINT g
            ∧ AZURE_AI_FOUNDRY_AGENT_ID g2 = AZURE_AI_FOUNDRY_AGENT_ID g
            ∧ (is_Some (AI_CLIENT g) → AI_CLIENT g2 = AI_CLIENT g))
    as (b & g2 & -> & He2 & Ha2 & Hc2).
  { destruct (AI_CLIENT g) as [c|] eqn:Hc.
    - exists true, g. split; [done|]. by rewrite Hc.
    - exists ok, g1. split; [done|]. repeat split; done. }
  unfold bind, get_globals.
  destruct (AI_CLIENT g2) as [c|] eqn:Hc.
  2:{ intros [= <- <-]. repeat split; try done.
      - intros Hsome. pose proof (Hc2 Hsome) as Heq.
        destruct Hsome as [c' Hc']. congruence.
      - right. split; [done|]. by left. }
  unfold try_except, with_client, bind.
  destruct (query_agent fuel _ query _) as [[[d|e] w]|] eqn:Hq; [| |done].
  - unfold ret. intros [= <- <-]. cbn. repeat split; try done.
    right. split; [done|]. right. right.
    destruct (query_agent_shape _ _ _ _ _ _ Hq)
      as [(? & ? & ? & ->)|(? & ? & ? & ? & ->)]; [left|right]; eauto.
  - unfold log_error, ret. intros [= <- <-]. cbn. repeat split; try done.
    right. split; [done|]. right. left. eauto.
Qed.


(** What the tool returns has one of three sets of keys: [error] alone
    (configuration, initialization and remote-call errors), the five keys
    of a failed run, or the five keys of a success.  [success] is [True]
    exactly when there is no [error], and exactly then there are
    [citations]; the identifiers come with [success], of either value. *)
Theorem answer_keys
    (AIProjectClient : str → exn + σ) fuel query g d g' :
  bing_search AIProjectClient fuel query g = Some (Return d, g') →
  (dom d = {["error"]}
   ∨ dom d = {["success"; "error"; "thread_id"; "run_id"; "result"]}
   ∨ dom d = {["success"; "thread_id"; "run_id"; "result"; "citations"]})
  ∧ (d !! "success" = Some (VBool true) ↔ d !! "error" = None)
  ∧ (is_Some (d !! "citations") ↔ d !! "error" = None)
  ∧ (is_Some (d !! "thread_id") ↔ is_Some (d !! "success"))
  ∧ (is_Some (d !! "run_id") ↔ is_Some (d !! "success")).
Proof.
  intros (_ & _ & _ & Hcases)%bing_search_cases.
  assert (∀ msg,
            d = error_payload msg →
            (dom d = {["error"]}
             ∨ dom d = {["success"; "error"; "thread_id"; "run_id"; "result"]}
             ∨ dom d = {["success"; "thread_id"; "run_id"; "result"; "citations"]})
            ∧ (d !! "success" = Some (VBool true) ↔ d !! "error" = None)
            ∧ (is_Some (d !! "citations") ↔ d !! "error" = None)
            ∧ (is_Some (d !! "thread_id") ↔ is_Some (d !! "success"))
            ∧ (is_Some (d !! "run_id") ↔ is_Some (d !! "success"))) as Herror.
  { intros msg ->. split; [left; unfold error_payload; by rewrite dom_singleton_L|].
    unfold error_payload. rewrite !lookup_singleton_ne by done.
    rewrite lookup_singleton_eq. repeat split; try done; by intros [? [=]]. }
  destruct Hcases
    as [[_ [= ->]]
       |[_ [[= ->]
           |[[? [= ->]]
            |[(error_msg & thread_id & run_id & [= ->])
             |(thread_id & run_id & result & citations & [= ->])]]]]];
    try by eapply Herror.
  - split.
    + right; left. unfold failure_result. rewrite !dom_insert_L, dom_empty_L.
      set_solver.
    + destruct (failure_result_lookup error_msg thread_id run_id)
        as (-> & -> & -> & -> & _ & ->).
      repeat split; try done; by intros [? [=]].
  - split.
    + right; right. unfold success_result. rewrite !dom_insert_L, dom_empty_L.
      set_solver.
    + destruct (success_result_lookup thread_id run_id result citations)
        as (-> & -> & -> & _ & -> & ->).
      repeat split; eauto.
Qed.

(** Line 154: the configuration-error payload is returned exactly when an
    identifier is [None] or the empty string. *)
Theorem not_initialized_iff_unconfigured
    (AIProjectClient : str → exn + σ) fuel query g d g' :
  bing_search AIProjectClient fuel query g = Some (Return d, g') →
  d = error_payload not_initialized_msg
  ↔ (truthy (AZURE_AI_FOUNDRY_PROJECT_ENDPOINT g) = false
     ∨ truthy (AZURE_AI_FOUNDRY_AGENT_ID g) = false).
Proof.
  intros (_ & _ & _ & Hcases)%bing_search_cases.
  assert (∀ msg, error_payload msg = error_payload not_initialized_msg →
                 msg = not_initialized_msg) as Hmsg.
  { intros msg Heq.
    assert (error_payload msg !! "error" = Some (VStr not_initialized_msg)) as Hl
      by (by rewrite Heq).
    unfold error_payload in Hl. rewrite lookup_singleton_eq in Hl. congruence. }
  assert (∀ d0, is_Some (d0 !! "success") → d0 ≠ error_payload not_initialized_msg)
    as Hkey.
  { intros d0 Hsome ->. by destruct Hsome as [? [=]]. }
  destruct Hcases
    as [[Hconf [= ->]]
       |[Hconf [[= ->]
               |[[e [= ->]]
                |[(error_msg & thread_id & run_id & [= ->])
                 |(thread_id & run_id & result & citations & [= ->])]]]]].
  - split; [|done]. intros _. by apply andb_false_iff.
  - split; [|intros Hf; apply andb_false_iff in Hf; congruence].
    intros Heq%Hmsg. by vm_compute in Heq.
  - split; [|intros Hf; apply andb_false_iff in Hf; congruence].
    intros Heq%Hmsg. by cbv in Heq.
  - split; [|intros Hf; apply andb_false_iff in Hf; congruence].
    intros Heq. exfalso. apply (Hkey (failure_result error_msg thread_id run_id)); [|done].
    destruct (failure_result_lookup error_msg thread_id run_id) as (-> & _). eauto.
  - split; [|intros Hf; apply andb_false_iff in Hf; congruence].
    intros Heq. exfalso.
    apply (Hkey (success_result thread_id run_id result citations)); [|done].
    destruct (success_result_lookup thread_id run_id result citations) as (-> & _).
    eauto.
Qed.

End Tool_invariants.

(** * [main] and the logging set-up *)

Section Start_up.
Context {σ : Type} `{client : AgentClient σ}.
Implicit Types (g : Globals σ) (environ : gmap string str).

(** Lines 184-201: when the environment lacks one of the two variables, or
    holds it empty, [main] warns (the last warning says that the features
    will not work) and starts the server all the same, over HTTP on
    0.0.0.0:8000 whatever the transport flag; from then on every invocation
    of the tool returns the configuration-error payload and leaves the
    globals as they are. *)
Theorem main_without_configuration args_transport environ g :
  truthy (environ !! "AZURE_AI_FOUNDRY_PROJECT_ENDPOINT") = false
  ∨ truthy (environ !! "AZURE_AI_FOUNDRY_AGENT_ID") = false →
  let started := main args_transport environ g in
  last (warnings (lines started))
  = Some (py "Bing Search features will not work without both environment variables")
  ∧ server started
    = {| transport := py "http"; host := py "0.0.0.0"; port := 8000 |}
  ∧ ∀ AIProjectClient fuel query,
      bing_search AIProjectClient fuel query (globals_of started)
      = Some (Return (error_payload not_initialized_msg), globals_of started).
Proof.
  intros Hmissing started. split; [|split; [done|]].
  - unfold started, main. cbn [lines].
    assert (truthy (environ !! "AZURE_AI_FOUNDRY_PROJECT_ENDPOINT")
            && truthy (environ !! "AZURE_AI_FOUNDRY_AGENT_ID") = false) as ->
      by (by apply andb_false_iff).
    unfold warn_if at 1. cbn [negb].
    unfold warnings. rewrite omap_app. cbn [omap list_omap app].
    by rewrite last_snoc.
  - intros AIProjectClient fuel query. apply bing_search_unconfigured.
    by apply andb_false_iff.
Qed.

(** Lines 184-201 with lines 153-163: when the environment holds both
    variables, not empty, [main] logs no warning and stores them; the first
    invocation of the tool then builds the client for the endpoint of the
    environment and, if that succeeds, queries the agent of the
    environment on it. *)
Theorem main_with_configuration
    args_transport environ endpoint agent_id AIProjectClient fuel query :
  environ !! "AZURE_AI_FOUNDRY_PROJECT_ENDPOINT" = Some endpoint →
  environ !! "AZURE_AI_FOUNDRY_AGENT_ID" = Some agent_id →
  endpoint ≠ [] → agent_id ≠ [] →
  let started := main (σ := σ) args_transport environ at_import in
  warnings (lines started) = []
  ∧ server started
    = {| transport := py "http"; host := py "0.0.0.0"; port := 8000 |}
  ∧ bing_search AIProjectClient fuel query (globals_of started)
    = match AIProjectClient endpoint with
      | inl e =>
          Some (Return (error_payload (py "Failed to initialize Bing Search client.")),
                recorded (globals_of started)
                  (LogError (py "Failed to initialize AIProjectClient: "
                             ++ exn_str e)))
      | inr c =>
          match query_agent fuel agent_id query {| platform := c; trace := [] |} with
          | Some (Return d, w) =>
              Some (Return d, sync (globals_of started) w)
          | Some (Raise e, w) =>
              Some (Return (error_payload
                              (py "Error performing Bing search: " ++ exn_str e)),
                    recorded (sync (globals_of started) w)
                      (LogError (py "Error performing Bing search: " ++ exn_str e)))
          | None => None
          end
      end.
Proof.
  intros He Ha Hne Hna started.
  assert (truthy (Some endpoint) = true) as Hte by (by destruct endpoint).
  assert (truthy (Some agent_id) = true) as Hta by (by destruct agent_id).
  split; [|split; [done|]].
  - unfold started, main. cbn [lines]. rewrite He, Ha, Hte, Hta. reflexivity.
  - assert (AZURE_AI_FOUNDRY_PROJECT_ENDPOINT (globals_of started) = Some endpoint)
      as He' by (unfold started, main; cbn; by rewrite He).
    assert (AZURE_AI_FOUNDRY_AGENT_ID (globals_of started) = Some agent_id)
      as Ha' by (unfold started, main; cbn; by rewrite Ha).
    rewrite (bing_search_configured AIProjectClient fuel query _ endpoint He' Hne);
      [|by rewrite Ha'|done].
    destruct (AIProjectClient endpoint) as [e|c]; [done|].
    rewrite (bing_search_ready AIProjectClient fuel query _ c agent_id);
      [|by cbn [installed AZURE_AI_FOUNDRY_PROJECT_ENDPOINT]; rewrite He'
       |by cbn [installed AZURE_AI_FOUNDRY_AGENT_ID]; rewrite Ha'|done|done].
    cbn [installed events globals_of main started at_import].
    destruct (query_agent _ _ _ _) as [[[d|e] w]|]; reflexivity.
Qed.

End Start_up.

(** Lines 18-36: however often [configure_utf8_logging] runs, the result
    is that of one run: the root logger is at level INFO with exactly one
    handler, which writes to the wrapper kept in [_utf8_stderr], and a
    wrapper is created only if none was kept. *)
Theorem configure_utf8_logging_once (s : Logging) (n : nat) :
  Nat.iter (S n) configure_utf8_logging s = configure_utf8_logging s
  ∧ root_level (configure_utf8_logging s) = INFO
  ∧ (∃ wrapper,
       utf8_stderr (configure_utf8_logging s) = Some wrapper
       ∧ stream <$> root_handlers (configure_utf8_logging s) = [wrapper]
       ∧ (∀ kept, utf8_stderr s = Some kept → wrapper = kept))
  ∧ wrappers_created (configure_utf8_logging s)
    = (wrappers_created s
       + match utf8_stderr s with Some _ => 0 | None => 1 end)%nat.
Proof.
  split.
  - induction n as [|n IH]; [done|].
    rewrite Nat.iter_succ, IH.
    unfold configure_utf8_logging. by destruct (utf8_stderr s).
  - unfold configure_utf8_logging. destruct (utf8_stderr s) as [kept|]; cbn.
    + split; [done|]. split; [|lia]. exists kept. by repeat split; [..|intros ? [= <-]].
    + split; [done|]. split; [|lia]. eexists. by repeat split.
Qed.

(** * The further statements at work on scripted runs *)

Lemma poll_returns_terminal_witness :
  pending (status (a_run (py "completed") (py "None"))) = false.
Proof.
  apply (poll_returns_terminal 2 (py "thread_1") (a_run (py "queued") (py "None"))
           (fresh (three_step (a_run (py "completed") (py "None")) (inr [])))
           (a_run (py "completed") (py "None"))
           {| platform :=
                {| on_get_agent := inr ();
                   on_threads_create := inr {| thread_id_of := py "thread_1" |};
                   on_messages_create := inr ();
                   on_runs_create := inr (a_run (py "queued") (py "None"));
                   on_runs_get := [];
                   on_messages_list := inr [];
                   call_count := 2 |};
              trace := [Sleep 1; Remote (RunsGet (py "thread_1") (py "run_1")) None;
                        Sleep 1; Remote (RunsGet (py "thread_1") (py "run_1")) None] |}).
  evaluated.
Defined.

Lemma poll_sleeps_and_fetches_witness :
  ∃ (o : outcome ThreadRun) (w' : Session Stub),
    poll 2 (py "thread_1") (a_run (py "queued") (py "None"))
      (fresh (three_step (a_run (py "failed") (py "None")) (inr [])))
    = Some (o, w')
    ∧ ∃ t, trace w' = [] ++ t
           ∧ forallb (is_poll_event (py "thread_1")) t = true
           ∧ sleeps t = runs_get_calls t.
Proof.
  eexists _, _. split; [vm_compute; reflexivity|].
  eapply (poll_sleeps_and_fetches 2 (py "thread_1") (a_run (py "queued") (py "None"))
            (fresh (three_step (a_run (py "failed") (py "None")) (inr [])))).
  evaluated.
Defined.

Lemma terminal_at_creation_not_polled_witness :
  ∃ (p4 : Stub) t,
    start_run 0 (py "agent_1") (py "weather") (fresh done_at_once)
    = Some (Return (py "thread_1", py "run_1", a_run (py "completed") (py "None")),
            {| platform := p4; trace := [] ++ t |})
    ∧ sleeps t = 0%nat ∧ runs_get_calls t = 0%nat
    ∧ List.length t = 4%nat.
Proof.
  eexists.
  eapply (terminal_at_creation_not_polled 0 (py "agent_1") (py "weather")
            (fresh done_at_once) _ {| thread_id_of := py "thread_1" |} _ _
            (a_run (py "completed") (py "None")));
    evaluated.
Defined.

Lemma identifiers_from_creation_witness :
  ∃ (run' : ThreadRun) (w' : Session Stub),
    start_run 1 (py "agent_1") (py "weather") (fresh renamed_run)
    = Some (Return (py "thread_1", py "run_1", run'), w')
    ∧ run_id_of run' = py "run_2"
    ∧ py "thread_1" = thread_id_of {| thread_id_of := py "thread_1" |}
    ∧ py "run_1" = run_id_of (a_run (py "queued") (py "None")).
Proof.
  eexists _, _. split; [vm_compute; reflexivity|]. split; [reflexivity|].
  eapply (identifiers_from_creation 1 (py "agent_1") (py "weather")
            (fresh renamed_run) _ {| thread_id_of := py "thread_1" |} _ _
            (a_run (py "queued") (py "None")));
    evaluated.
Defined.

Lemma pending_forever_never_returns_witness :
  query_agent 1000 (py "agent_1") (py "weather")
    {| platform := {| stuck_calls := 0 |}; trace := [] |}
  = None.
Proof.
  refine (pending_forever_never_returns (py "agent_1") (py "weather")
            {| platform := {| stuck_calls := 0 |}; trace := [] |}
            {| stuck_calls := 1 |} {| thread_id_of := py "thread_1" |}
            {| stuck_calls := 2 |} {| stuck_calls := 3 |}
            (a_run (py "queued") (py "None")) {| stuck_calls := 4 |}
            eq_refl eq_refl eq_refl eq_refl _ _ 1000).
  - vm_compute. reflexivity.
  - intros thread_id run_id p. eexists _, _. split; reflexivity.
Defined.

Lemma one_call_of_each_kind_witness :
  query_agent 0 (py "agent_1") (py "weather") (fresh done_at_once)
  = Some (Return done_at_once_result, done_at_once_session)
  ∧ ∃ t,
      trace done_at_once_session = [] ++ t
      ∧ (∃ raised t', t = Remote (GetAgent (py "agent_1")) raised :: t')
      ∧ calls_where is_get_agent t = 1%nat
      ∧ (calls_where is_threads_create t ≤ 1)%nat
      ∧ (calls_where is_messages_create t ≤ 1)%nat
      ∧ (calls_where is_runs_create t ≤ 1)%nat
      ∧ (calls_where is_messages_list t ≤ 1)%nat.
Proof.
  split; [vm_compute; reflexivity|].
  apply (one_call_of_each_kind 0 (py "agent_1") (py "weather")
           (fresh done_at_once) (Return done_at_once_result) done_at_once_session).
  evaluated.
Defined.

Lemma distinct_annotations_all_kept_witness :
  collect_citations [] [cite "One" "http://1"; cite "Two" "http://2"]
  = render <$> [cite "One" "http://1"; cite "Two" "http://2"].
Proof.
  apply (distinct_annotations_all_kept [cite "One" "http://1"; cite "Two" "http://2"]).
  apply (bool_decide_unpack _). vm_compute. exact I.
Defined.

Lemma seen_annotations_add_nothing_witness :
  collect_citations []
    ([cite "One" "http://1"; cite "Two" "http://2"] ++ [cite "One" "http://1"])
  = collect_citations [] [cite "One" "http://1"; cite "Two" "http://2"]
  ∧ (List.length (collect_citations [] [cite "One" "http://1"; cite "Two" "http://2"])
     ≤ List.length [cite "One" "http://1"; cite "Two" "http://2"])%nat.
Proof.
  apply (seen_annotations_add_nothing
           [cite "One" "http://1"; cite "Two" "http://2"] [cite "One" "http://1"]).
  intros a Ha. apply list_elem_of_singleton in Ha. rewrite Ha.
  apply (bool_decide_unpack _). vm_compute. exact I.
Defined.

Lemma result_is_stripped_witness :
  ∃ (w1 : Session Stub) (p : Stub) d result,
    query_agent 2 (py "agent_1") (py "weather")
      (fresh (three_step (a_run (py "completed") (py "None"))
                (inr [user_message; cited_answer])))
    = Some (Return d,
            {| platform := p;
               trace := trace w1 ++ [Remote (MessagesList (py "thread_1")) None] |})
    ∧ d !! "result" = Some (VStr result)
    ∧ (∀ c, head result = Some c → isspace c = false)
    ∧ (∀ c, last result = Some c → isspace c = false)
    ∧ strip result = result.
Proof.
  eexists _, _.
  apply (result_is_stripped 2 (py "agent_1") (py "weather")
           (fresh (three_step (a_run (py "completed") (py "None"))
                     (inr [user_message; cited_answer])))
           (py "thread_1") (py "run_1") (a_run (py "completed") (py "None"))
           _ [user_message; cited_answer]);
    evaluated.
Defined.

Lemma result_with_citations_witness :
  ∃ (w1 : Session Stub) (p : Stub) d citations,
    query_agent 2 (py "agent_1") (py "weather")
      (fresh (three_step (a_run (py "completed") (py "None"))
                (inr [user_message; cited_answer])))
    = Some (Return d,
            {| platform := p;
               trace := trace w1 ++ [Remote (MessagesList (py "thread_1")) None] |})
    ∧ d !! "citations" = Some (VList citations)
    ∧ citations ≠ []
    ∧ let text := List.concat ((λ s, s ++ nl) <$> text_messages cited_answer) in
      let section :=
        join nl (py "## Sources" :: ((λ c, py "- " ++ c) <$> citations)) in
      d !! "result"
      = Some (VStr (match lstrip text with
                    | [] => section
                    | _ :: _ => lstrip text ++ nl ++ nl ++ section
                    end)).
Proof.
  eexists _, _.
  apply (result_with_citations 2 (py "agent_1") (py "weather")
           (fresh (three_step (a_run (py "completed") (py "None"))
                     (inr [user_message; cited_answer])))
           (py "thread_1") (py "run_1") (a_run (py "completed") (py "None"))
           _ [user_message; cited_answer] cited_answer);
    evaluated.
Defined.

Lemma construction_failure_payload_witness :
  bing_search no_credentials 2 (py "weather") (configured None)
  = Some (Return (error_payload (py "Failed to initialize Bing Search client.")),
          recorded (configured None)
            (LogError (py "Failed to initialize AIProjectClient: "
                       ++ exn_str (Exception (py "no credentials")))))
  ∧ AI_CLIENT (recorded (configured None)
                 (LogError (py "Failed to initialize AIProjectClient: "
                            ++ exn_str (Exception (py "no credentials"))))) = None.
Proof.
  apply (construction_failure_payload no_credentials 2 (py "weather")
           (configured None) (py "https://example.invalid")
           (Exception (py "no credentials")));
    evaluated.
Defined.

Lemma first_use_builds_client_witness :
  bing_search (λ _, inr done_at_once) 0 (py "weather") (configured None)
  = bing_search (λ _, inr done_at_once) 0 (py "weather")
      (installed (configured None) done_at_once).
Proof.
  apply (first_use_builds_client (λ _, inr done_at_once) 0 (py "weather")
           (configured None) (py "https://example.invalid") done_at_once);
    evaluated.
Defined.

Lemma client_built_at_most_once_witness :
  bing_search no_credentials 0 (py "weather") (configured (Some done_at_once))
  = bing_search (λ _, inr renamed_run) 0 (py "weather")
      (configured (Some done_at_once)).
Proof.
  apply (client_built_at_most_once no_credentials (λ _, inr renamed_run)
           0 (py "weather") (configured (Some done_at_once)) done_at_once).
  reflexivity.
Defined.


Lemma answer_keys_witness :
  bing_search no_credentials 0 (py "weather") (configured (Some done_at_once))
  = Some (Return done_at_once_result,
          sync (configured (Some done_at_once)) done_at_once_session)
  ∧ (dom done_at_once_result = {["error"]}
     ∨ dom done_at_once_result
       = {["success"; "error"; "thread_id"; "run_id"; "result"]}
     ∨ dom done_at_once_result
       = {["success"; "thread_id"; "run_id"; "result"; "citations"]})
  ∧ (done_at_once_result !! "success" = Some (VBool true)
     ↔ done_at_once_result !! "error" = None)
  ∧ (is_Some (done_at_once_result !! "citations")
     ↔ done_at_once_result !! "error" = None)
  ∧ (is_Some (done_at_once_result !! "thread_id")
     ↔ is_Some (done_at_once_result !! "success"))
  ∧ (is_Some (done_at_once_result !! "run_id")
     ↔ is_Some (done_at_once_result !! "success")).
Proof.
  split; [vm_compute; reflexivity|].
  apply (answer_keys no_credentials 0 (py "weather")
           (configured (Some done_at_once)) done_at_once_result
           (sync (configured (Some done_at_once)) done_at_once_session)).
  evaluated.
Defined.

Lemma not_initialized_iff_unconfigured_witness :
  ∃ (d : Dict) (g' : Globals Stub),
    bing_search no_credentials 0 (py "weather")
      {| AZURE_AI_FOUNDRY_PROJECT_ENDPOINT := Some (py "https://example.invalid");
         AZURE_AI_FOUNDRY_AGENT_ID := Some [];
         AI_CLIENT := Some done_at_once;
         events := [] |}
    = Some (Return d, g')
    ∧ (d = error_payload not_initialized_msg
       ↔ (truthy (Some (py "https://example.invalid")) = false
          ∨ truthy (Some []) = false)).
Proof.
  eexists _, _. split; [vm_compute; reflexivity|].
  eapply (not_initialized_iff_unconfigured no_credentials 0 (py "weather")
            {| AZURE_AI_FOUNDRY_PROJECT_ENDPOINT := Some (py "https://example.invalid");
               AZURE_AI_FOUNDRY_AGENT_ID := Some [];
               AI_CLIENT := Some done_at_once;
               events := [] |}).
  evaluated.
Defined.

Lemma main_without_configuration_witness :
  last (warnings (lines started_without_agent))
  = Some (py "Bing Search features will not work without both environment variables")
  ∧ server started_without_agent
    = {| transport := py "http"; host := py "0.0.0.0"; port := 8000 |}
  ∧ ∀ AIProjectClient fuel query,
      bing_search AIProjectClient fuel query (globals_of started_without_agent)
      = Some (Return (error_payload not_initialized_msg),
              globals_of started_without_agent).
Proof.
  apply (main_without_configuration (σ := Stub) (Some (py "sse"))
           {[ "AZURE_AI_FOUNDRY_PROJECT_ENDPOINT" := py "https://example.invalid" ]}
           at_import).
  right. reflexivity.
Defined.

Lemma main_with_configuration_witness :
  warnings (lines started_with_both) = []
  ∧ server started_with_both
    = {| transport := py "http"; host := py "0.0.0.0"; port := 8000 |}
  ∧ bing_search (λ _, inr done_at_once) 0 (py "weather") (globals_of started_with_both)
    = match (inr done_at_once : exn + Stub) with
      | inl e =>
          Some (Return (error_payload (py "Failed to initialize Bing Search client.")),
                recorded (globals_of started_with_both)
                  (LogError (py "Failed to initialize AIProjectClient: "
                             ++ exn_str e)))
      | inr c =>
          match query_agent 0 (py "agent_1") (py "weather")
                  {| platform := c; trace := [] |} with
          | Some (Return d, w) =>
              Some (Return d, sync (globals_of started_with_both) w)
          | Some (Raise e, w) =>
              Some (Return (error_payload
                              (py "Error performing Bing search: " ++ exn_str e)),
                    recorded (sync (globals_of started_with_both) w)
                      (LogError (py "Error performing Bing search: " ++ exn_str e)))
          | None => None
          end
      end.
Proof.
  exact (main_with_configuration (σ := Stub) None
           (<["AZURE_AI_FOUNDRY_PROJECT_ENDPOINT" := py "https://example.invalid"]>
              {[ "AZURE_AI_FOUNDRY_AGENT_ID" := py "agent_1" ]})
           (py "https://example.invalid") (py "agent_1")
           (λ _, inr done_at_once) 0 (py "weather")
           eq_refl eq_refl ltac:(evaluated) ltac:(evaluated)).
Defined.
